(** * Input declarations and input mappings of dagster

    A shallow embedding of
    [python_modules/dagster/dagster/_core/definitions/input.py]:
    [_check_default_value], [InputDefinition], [_checked_inferred_type],
    [InputPointer] / [FanInInputPointer], [InputMapping], [In] and [GraphIn].

    Python exceptions are modelled by a [result] type; the calls that the
    module makes into the rest of dagster (the type registry, the name
    grammar, metadata normalisation) are the fields of the class
    [Collaborators]. *)

From Stdlib Require Import ZArith Bool Lia.
From stdpp Require Import base option strings pretty gmap.

Local Open Scope Z_scope.
Local Open Scope string_scope.

(** ** Exceptions and results *)

(** The exception classes the module can raise or let through.
    [DagsterInvalidDefinitionError] is a subclass of [DagsterError]
    (both from [dagster._core.errors]).  [CheckError] is the class raised by
    the helpers of [dagster._check] ([check.invariant], [check.inst], the
    [*_param] functions), the one the test-suite imports from [dagster._check]
    to catch a failed [check] call; [check.param_invariant] and the [*_param]
    functions raise its subclass [ParameterCheckError].  Neither of the two
    is a [DagsterError].  A check error carries the description its caller
    passed; the final wording of the message is composed in [dagster._check]. *)
Inductive Exception : Type :=
| DagsterInvalidDefinitionError (msg : string)
| DagsterError (msg : string)   (* an instance of another subclass *)
| CheckError (msg : string)
| ParameterCheckError (param_name : string) (msg : string).

(** [isinstance(e, DagsterError)], the test of an [except DagsterError]. *)
Definition is_DagsterError (e : Exception) : bool :=
  match e with
  | DagsterInvalidDefinitionError _ | DagsterError _ => true
  | CheckError _ | ParameterCheckError _ _ => false
  end.

(** [isinstance(e, DagsterInvalidDefinitionError)]. *)
Definition is_DagsterInvalidDefinitionError (e : Exception) : bool :=
  match e with
  | DagsterInvalidDefinitionError _ => true
  | _ => false
  end.

Inductive result (A : Type) : Type :=
| Ok (a : A)
| Err (e : Exception).

Arguments Ok {A} a.
Arguments Err {A} e.

#[global] Instance result_ret : MRet result := fun _ a => Ok a.
#[global] Instance result_bind : MBind result := fun _ _ f r =>
  match r with
  | Ok a => f a
  | Err e => Err e
  end.

(** [s1 in s2] for Python strings. *)
Definition contains (needle hay : string) : Prop :=
  exists pre post, hay = pre +:+ needle +:+ post.

(** ** Sentinels and type specifiers *)

(** A Python value that may be the class [NoValueSentinel] (from [.utils]),
    the marker for "nothing was supplied", which differs from every value
    a caller can mean, [None] included. *)
Inductive or_sentinel (A : Type) : Type :=
| NoValueSentinel
| Given (a : A).

Arguments NoValueSentinel {A}.
Arguments Given {A} a.

(** [x is not NoValueSentinel] *)
Definition is_given {A} (x : or_sentinel A) : bool :=
  match x with NoValueSentinel => false | Given _ => true end.

(** What may be passed where a type is expected ([dagster_type: object], or
    the [annotation] read off a signature): [None], the marker
    [inspect.Parameter.empty], the class [type(None)], an instance of
    [DagsterType], or any other object (a Python type, a typing generic...). *)
Inductive TypeSpecifier (D O : Type) : Type :=
| PyNone
| ParameterEmpty
| NoneType
| DagsterTypeInstance (t : D)
| PyOther (o : O).

Arguments PyNone {D O}.
Arguments ParameterEmpty {D O}.
Arguments NoneType {D O}.
Arguments DagsterTypeInstance {D O} t.
Arguments PyOther {D O} o.

(** A Python callable of one argument.  [types.FunctionType] holds of [def]
    functions and lambdas only; bound methods, [functools.partial] objects
    and instances with [__call__] are callable without being functions. *)
Inductive Callable (A B : Type) : Type :=
| Function (f : A -> B)
| CallableObject (f : A -> B).

Arguments Function {A B} f.
Arguments CallableObject {A B} f.

Definition call {A B} (c : Callable A B) : A -> B :=
  match c with Function f | CallableObject f => f end.

(** [isinstance(c, FunctionType)] *)
Definition is_FunctionType {A B} (c : Callable A B) : bool :=
  match c with Function _ => true | CallableObject _ => false end.

(** ** The collaborators of the module

    Everything [input.py] imports and calls but does not define. *)
Class Collaborators : Type := {
  (** instances of [dagster._core.types.dagster_type.DagsterType] *)
  DagsterType : Type;
  (** objects other than the ones [TypeSpecifier] names *)
  PyObject : Type;
  (** Python values, as candidates for a default value *)
  Value : Type;
  (** [dagster._core.execution.context.input.InputContext] *)
  InputContext : Type;
  (** [dagster._core.definitions.events.AssetKey] *)
  AssetKey : Type;
  RawMetadataValue : Type;
  MetadataEntry : Type;

  (** [resolve_dagster_type(obj)] *)
  resolve_dagster_type : TypeSpecifier DagsterType PyObject -> result DagsterType;
  (** the descriptor [Any], to which an [InputDefinition] defaults *)
  Any : DagsterType;
  (** [dagster_type.is_nothing] *)
  is_nothing : DagsterType -> bool;
  (** [isinstance(dagster_type, BuiltinScalarDagsterType)] *)
  is_BuiltinScalarDagsterType : DagsterType -> bool;
  (** [dagster_type.type_check_scalar_value(value).success] *)
  type_check_scalar_value : DagsterType -> Value -> bool;
  (** [dagster_type.display_name] *)
  display_name : DagsterType -> string;
  (** [str(value)] and [str(type(value))], as a format field renders them *)
  str_value : Value -> string;
  str_type_of : Value -> string;
  (** [str(annotation)] *)
  str_annotation : TypeSpecifier DagsterType PyObject -> string;
  (** [check_valid_name(name)] from [.utils] *)
  check_valid_name : string -> result string;
  (** [normalize_metadata(metadata, [], allow_invalid=True)] *)
  normalize_metadata : list (string * RawMetadataValue) -> list MetadataEntry
}.

(** What the module relies on from its collaborators: an instance of
    [DagsterType] resolves to itself, [None] resolves to [Any], and
    [check_valid_name] hands back the name it accepted. *)
Class CollaboratorLaws (C : Collaborators) : Prop := {
  resolve_instance : forall t : DagsterType,
    resolve_dagster_type (DagsterTypeInstance t) = Ok t;
  resolve_None : resolve_dagster_type PyNone = Ok Any;
  check_valid_name_same : forall n n' : string,
    check_valid_name n = Ok n' -> n' = n
}.

(** ** [dagster._check] *)

Module check.

(** [check.invariant(condition, desc)] *)
Definition invariant (condition : bool) (desc : string) : result unit :=
  if condition then Ok tt else Err (CheckError desc).

(** [check.param_invariant(condition, param_name, desc)] *)
Definition param_invariant (condition : bool) (param_name desc : string)
  : result unit :=
  if condition then Ok tt else Err (ParameterCheckError param_name desc).

(** [check.opt_dict_param(obj, ..., key_type=str)] on a mapping with string
    keys, or [None]: the mapping itself, the empty one for [None]. *)
Definition opt_dict_param {V} (obj : option (list (string * V)))
  : list (string * V) :=
  match obj with Some m => m | None => [] end.

End check.

(** The one-character string holding a double quote. *)
Definition dquote : string := String (Ascii.ascii_of_nat 34) EmptyString.

(** Truth value of an [Optional[str]]: [None] and the empty string are false. *)
Definition truthy_str (s : option string) : bool :=
  match s with
  | Some s => negb (String.eqb s EmptyString)
  | None => false
  end.

Section Definitions.
Context {C : Collaborators}.

Definition TypeSpec : Type := TypeSpecifier DagsterType PyObject.
Definition Metadata : Type := list (string * RawMetadataValue).

(** [_check_default_value(input_name, dagster_type, default_value)] *)
Definition _check_default_value (input_name : string) (dagster_type : DagsterType)
    (default_value : or_sentinel Value) : result (or_sentinel Value) :=
  match default_value with
  | Given v =>
      if is_nothing dagster_type then
        Err (DagsterInvalidDefinitionError
               "Setting a default_value is invalid on InputDefinitions of type Nothing")
      else if is_BuiltinScalarDagsterType dagster_type then
        if type_check_scalar_value dagster_type v then Ok default_value
        else
          Err (DagsterInvalidDefinitionError
                 ("Type check failed for the default_value of InputDefinition "
                  +:+ input_name +:+ " of type " +:+ display_name dagster_type
                  +:+ ". Received value " +:+ str_value v
                  +:+ " of type " +:+ str_type_of v))
      else Ok default_value
  | NoValueSentinel => Ok default_value
  end.

End Definitions.

(** ** Properties inferred from a signature *)

Module InferredInputProps.
Section WithCollaborators.
Context {C : Collaborators}.

(** Modelled from the spec: the named tuple [InferredInputProps] is declared
    in [.inference], which is not among the sources.  The spec gives it as
    [InferredPortInfo{name, annotation, description?, default?}]; the field
    names are the ones [input.py] reads. *)
Record t : Type := mk {
  name : string;
  annotation : TypeSpec;
  description : option string;
  default_value : or_sentinel Value
}.

End WithCollaborators.
End InferredInputProps.

Section InferredType.
Context {C : Collaborators}.

(** The [except DagsterError as e: raise DagsterInvalidDefinitionError(...) from e]
    clause of [_checked_inferred_type]. *)
Definition reraise_inferred (inferred : InferredInputProps.t)
    (r : result DagsterType) : result DagsterType :=
  match r with
  | Ok resolved_type => Ok resolved_type
  | Err e =>
      if is_DagsterError e then
        Err (DagsterInvalidDefinitionError
               ("Problem using type '"
                +:+ str_annotation (InferredInputProps.annotation inferred)
                +:+ "' from type annotation for argument '"
                +:+ InferredInputProps.name inferred
                +:+ "', correct the issue or explicitly set the dagster_type via In()."))
      else Err e
  end.

(** [_checked_inferred_type(inferred)] *)
Definition _checked_inferred_type (inferred : InferredInputProps.t)
  : result DagsterType :=
  reraise_inferred inferred
    match InferredInputProps.annotation inferred with
    | ParameterEmpty => resolve_dagster_type PyNone
    | PyNone => resolve_dagster_type NoneType
    | annotation => resolve_dagster_type annotation
    end.

End InferredType.

(** ** Pointers and input mappings *)

(** [InputPointer] and [FanInInputPointer], the two classes [maps_to] can
    return. *)
Inductive Pointer : Type :=
| InputPointer (solid_name input_name : string)
| FanInInputPointer (solid_name input_name : string) (fan_in_index : Z).

Definition solid_name (p : Pointer) : string :=
  match p with InputPointer s _ | FanInInputPointer s _ _ => s end.

Definition input_name (p : Pointer) : string :=
  match p with InputPointer _ i | FanInInputPointer _ i _ => i end.

(** [isinstance(p, FanInInputPointer)] *)
Definition is_FanInInputPointer (p : Pointer) : bool :=
  match p with FanInInputPointer _ _ _ => true | InputPointer _ _ => false end.

Module InputMapping.
Section WithCollaborators.
Context {C : Collaborators}.

(** The named tuple [InputMapping]; its constructor checks nothing. *)
Record t : Type := mk {
  graph_input_name : string;
  mapped_node_name : string;
  mapped_node_input_name : string;
  fan_in_index : option Z;
  graph_input_description : option string;
  dagster_type : option DagsterType
}.

(** property [maps_to]; the constructors of the two pointer classes check
    the classes of their arguments, strings and an integer here. *)
Definition maps_to (self : t) : Pointer :=
  match fan_in_index self with
  | Some i => FanInInputPointer (mapped_node_name self) (mapped_node_input_name self) i
  | None => InputPointer (mapped_node_name self) (mapped_node_input_name self)
  end.

(** property [maps_to_fan_in] *)
Definition maps_to_fan_in (self : t) : bool :=
  is_FanInInputPointer (maps_to self).

(** [describe()]; an [int] in a format field is rendered in decimal. *)
Definition describe (self : t) : string :=
  let idx :=
    match maps_to self with
    | FanInInputPointer _ _ i => pretty i
    | InputPointer _ _ => EmptyString
    end in
  graph_input_name self +:+ " -> " +:+ solid_name (maps_to self) +:+ ":"
    +:+ input_name (maps_to self) +:+ idx.

End WithCollaborators.
End InputMapping.

(** ** Input definitions *)

Module InputDefinition.
Section WithCollaborators.
Context {C : Collaborators}.

(** The [asset_key] argument when it is not [None]: an [AssetKey], or a
    callable from the context. *)
Inductive AssetKeyArg : Type :=
| FixedAssetKey (k : AssetKey)
| AssetKeyFn (f : Callable InputContext AssetKey).

(** The [asset_partitions] argument when it is not [None]: a set of
    partition names, or a function from the context. *)
Inductive AssetPartitionsArg : Type :=
| PartitionSet (s : gset string)
| PartitionFn (f : InputContext -> gset string).

(** Truth value of [asset_partitions]: [None] and the empty set are false,
    a function is true. *)
Definition truthy_asset_partitions (a : option AssetPartitionsArg) : bool :=
  match a with
  | Some (PartitionSet s) => negb (bool_decide (s = ∅))
  | Some (PartitionFn _) => true
  | None => false
  end.

Record t : Type := mk {
  _name : string;
  _type_not_set : bool;
  _dagster_type : DagsterType;
  _description : option string;
  _default_value : or_sentinel Value;
  _input_manager_key : option string;
  _root_manager_key : option string;
  _metadata : Metadata;
  _metadata_entries : list MetadataEntry;
  _asset_key : option AssetKeyArg;
  _asset_partitions_fn : option (InputContext -> gset string)
}.

(** The rejection of two manager keys, shared by [InputDefinition.__init__]
    and [In.__new__]. *)
Definition check_manager_keys (root_manager_key input_manager_key : option string)
  : result unit :=
  match root_manager_key, input_manager_key with
  | Some r, Some i =>
      if truthy_str (Some r) && truthy_str (Some i) then
        Err (DagsterInvalidDefinitionError
               ("Can't supply both root input manager key " +:+ r
                +:+ " and input manager key " +:+ i +:+ " on InputDefinition."))
      else Ok tt
  | _, _ => Ok tt
  end.

(** The last step of [__init__]: a function is stored as it is, a set
    [_asset_partitions] as [lambda _: _asset_partitions], [None] as [None]. *)
Definition asset_partitions_fn_of (asset_partitions : option AssetPartitionsArg)
  : option (InputContext -> gset string) :=
  match asset_partitions with
  | Some (PartitionFn f) => Some f
  | Some (PartitionSet _asset_partitions) => Some (fun _ => _asset_partitions)
  | None => None
  end.

(** The guard on [asset_partitions]: when the argument is true,
    [asset_key] must not be [None]. *)
Definition check_asset_partitions (asset_key : option AssetKeyArg)
    (asset_partitions : option AssetPartitionsArg) : result unit :=
  if truthy_asset_partitions asset_partitions then
    check.param_invariant
      (match asset_key with Some _ => true | None => false end)
      "asset_partitions"
      ("Cannot specify " +:+ dquote +:+ "asset_partitions" +:+ dquote
       +:+ " argument without also specifying " +:+ dquote +:+ "asset_key"
       +:+ dquote)
  else Ok tt.

(** [InputDefinition.__init__].  The deprecation and experimental warnings
    go to the [warnings] channel and leave the object unchanged; the
    [check.*_param] calls on arguments whose Rocq type already is the
    checked one always pass. *)
Definition init (name : string) (dagster_type : TypeSpec)
    (description : option string) (default_value : or_sentinel Value)
    (root_manager_key : option string) (metadata : option Metadata)
    (asset_key : option AssetKeyArg) (asset_partitions : option AssetPartitionsArg)
    (input_manager_key : option string) : result t :=
  name' ← check_valid_name name;
  let type_not_set := match dagster_type with PyNone => true | _ => false end in
  dagster_type' ← resolve_dagster_type dagster_type;
  default_value' ← _check_default_value name' dagster_type' default_value;
  _ ← check_manager_keys root_manager_key input_manager_key;
  let metadata' := check.opt_dict_param metadata in
  _ ← check_asset_partitions asset_key asset_partitions;
  Ok {| _name := name';
        _type_not_set := type_not_set;
        _dagster_type := dagster_type';
        _description := description;
        _default_value := default_value';
        _input_manager_key := input_manager_key;
        _root_manager_key := root_manager_key;
        _metadata := metadata';
        _metadata_entries := normalize_metadata metadata';
        _asset_key := asset_key;
        _asset_partitions_fn := asset_partitions_fn_of asset_partitions |}.

End WithCollaborators.
End InputDefinition.

Section InputDefinitionMethods.
Context {C : Collaborators}.
Import InputDefinition.

(** properties [name], [dagster_type], [description], [has_default_value],
    [root_manager_key], [input_manager_key], [metadata], [is_asset],
    [metadata_entries] *)
Definition name (self : InputDefinition.t) : string := _name self.
Definition dagster_type (self : InputDefinition.t) : DagsterType := _dagster_type self.
Definition description (self : InputDefinition.t) : option string := _description self.
Definition has_default_value (self : InputDefinition.t) : bool :=
  is_given (_default_value self).
Definition root_manager_key (self : InputDefinition.t) : option string :=
  _root_manager_key self.
Definition input_manager_key (self : InputDefinition.t) : option string :=
  _input_manager_key self.
Definition metadata (self : InputDefinition.t) : Metadata := _metadata self.
Definition is_asset (self : InputDefinition.t) : bool :=
  match _asset_key self with Some _ => true | None => false end.
Definition metadata_entries (self : InputDefinition.t) : list MetadataEntry :=
  _metadata_entries self.

(** property [default_value], guarded by [check.invariant] *)
Definition default_value (self : InputDefinition.t) : result Value :=
  match _default_value self with
  | Given v => Ok v
  | NoValueSentinel =>
      Err (CheckError "Can only fetch default_value if has_default_value")
  end.

(** property [hardcoded_asset_key] *)
Definition hardcoded_asset_key (self : InputDefinition.t) : option AssetKey :=
  match _asset_key self with
  | Some (FixedAssetKey k) => Some k
  | _ => None
  end.

(** [get_asset_key(context)] *)
Definition get_asset_key (self : InputDefinition.t) (context : InputContext)
  : option AssetKey :=
  match _asset_key self with
  | Some (AssetKeyFn f) => Some (call f context)
  | _ => hardcoded_asset_key self
  end.

(** [get_asset_partitions(context)] *)
Definition get_asset_partitions (self : InputDefinition.t) (context : InputContext)
  : option (gset string) :=
  match _asset_partitions_fn self with
  | None => None
  | Some f => Some (f context)
  end.

(** [mapping_to(solid_name, input_name, fan_in_index=None)]; the three
    [check] calls test the classes of the arguments only. *)
Definition mapping_to (self : InputDefinition.t) (solid_name input_name : string)
    (fan_in_index : option Z) : InputMapping.t :=
  {| InputMapping.graph_input_name := name self;
     InputMapping.mapped_node_name := solid_name;
     InputMapping.mapped_node_input_name := input_name;
     InputMapping.fan_in_index := fan_in_index;
     InputMapping.graph_input_description := description self;
     InputMapping.dagster_type := Some (dagster_type self) |}.

(** static method [create_from_inferred(inferred)] *)
Definition create_from_inferred (inferred : InferredInputProps.t)
  : result InputDefinition.t :=
  ty ← _checked_inferred_type inferred;
  init (InferredInputProps.name inferred) (DagsterTypeInstance ty)
    (InferredInputProps.description inferred)
    (InferredInputProps.default_value inferred)
    None None None None None.

(** [combine_with_inferred(inferred)] *)
Definition combine_with_inferred (self : InputDefinition.t)
    (inferred : InferredInputProps.t) : result InputDefinition.t :=
  _ ← check.invariant
        (String.eqb (name self) (InferredInputProps.name inferred))
        ("InferredInputProps name " +:+ InferredInputProps.name inferred
         +:+ " did not align with InputDefinition name " +:+ name self);
  dagster_type ← (if _type_not_set self then _checked_inferred_type inferred
                  else Ok (_dagster_type self));
  let description :=
    match _description self, InferredInputProps.description inferred with
    | None, Some d => Some d
    | description, _ => description
    end in
  let default_value :=
    if negb (has_default_value self) then InferredInputProps.default_value inferred
    else _default_value self in
  init (name self) (DagsterTypeInstance dagster_type) description default_value
    (_root_manager_key self) (Some (_metadata self)) (_asset_key self)
    (option_map PartitionFn (_asset_partitions_fn self))
    (_input_manager_key self).

(** [InputMapping.get_definition()] *)
Definition get_definition (self : InputMapping.t) : result InputDefinition.t :=
  init (InputMapping.graph_input_name self)
    (match InputMapping.dagster_type self with
     | Some ty => DagsterTypeInstance ty
     | None => PyNone
     end)
    (InputMapping.graph_input_description self)
    NoValueSentinel None None None None None.

End InputDefinitionMethods.

(** ** Templates: [In] and [GraphIn] *)

Module In.
Section WithCollaborators.
Context {C : Collaborators}.
Import InputDefinition.

Record t : Type := mk {
  dagster_type : or_sentinel DagsterType;
  description : option string;
  default_value : or_sentinel Value;
  root_manager_key : option string;
  metadata : Metadata;
  asset_key : option AssetKeyArg;
  asset_partitions : option AssetPartitionsArg;
  input_manager_key : option string
}.

(** [check.opt_inst_param(asset_key, "asset_key", (AssetKey, FunctionType))] *)
Definition check_asset_key (asset_key : option AssetKeyArg)
  : result (option AssetKeyArg) :=
  match asset_key with
  | Some (AssetKeyFn f) =>
      if is_FunctionType f then Ok asset_key
      else Err (ParameterCheckError "asset_key" "(AssetKey, FunctionType)")
  | _ => Ok asset_key
  end.

(** [In.__new__] *)
Definition new (dagster_type : or_sentinel TypeSpec) (description : option string)
    (default_value : or_sentinel Value) (root_manager_key : option string)
    (metadata : option Metadata) (asset_key : option AssetKeyArg)
    (asset_partitions : option AssetPartitionsArg)
    (input_manager_key : option string) : result t :=
  _ ← check_manager_keys root_manager_key input_manager_key;
  dagster_type' ← match dagster_type with
                  | NoValueSentinel => Ok NoValueSentinel
                  | Given ty => ty' ← resolve_dagster_type ty; Ok (Given ty')
                  end;
  asset_key' ← check_asset_key asset_key;
  Ok {| dagster_type := dagster_type';
        description := description;
        default_value := default_value;
        root_manager_key := root_manager_key;
        metadata := check.opt_dict_param metadata;
        asset_key := asset_key';
        asset_partitions := asset_partitions;
        input_manager_key := input_manager_key |}.

(** static method [from_definition(input_def)] *)
Definition from_definition (input_def : InputDefinition.t) : result t :=
  new (Given (DagsterTypeInstance (_dagster_type input_def)))
    (_description input_def)
    (_default_value input_def)
    (_root_manager_key input_def)
    (Some (_metadata input_def))
    (_asset_key input_def)
    (option_map PartitionFn (_asset_partitions_fn input_def))
    (_input_manager_key input_def).

(** [to_definition(name)] *)
Definition to_definition (self : t) (name : string) : result InputDefinition.t :=
  let dagster_type :=
    match dagster_type self with
    | Given ty => DagsterTypeInstance ty
    | NoValueSentinel => PyNone
    end in
  init name dagster_type (description self) (default_value self)
    (root_manager_key self) (Some (metadata self)) (asset_key self)
    (asset_partitions self) (input_manager_key self).

End WithCollaborators.
End In.

Module GraphIn.
Section WithCollaborators.
Context {C : Collaborators}.

Record t : Type := mk { description : option string }.

(** [to_definition(name)] *)
Definition to_definition (self : t) (name : string) : result InputDefinition.t :=
  InputDefinition.init name PyNone (description self) NoValueSentinel
    None None None None None.

End WithCollaborators.
End GraphIn.

Section RoundTrip.
Context {C : Collaborators}.

(** [In.from_definition(d).to_definition(d.name)] *)
Definition round_trip (d : InputDefinition.t) : result InputDefinition.t :=
  template ← In.from_definition d;
  In.to_definition template (name d).

(** [d] is the outcome of a call of the constructor. *)
Definition constructed (d : InputDefinition.t) : Prop :=
  exists name dagster_type description default_value root_manager_key metadata
         asset_key asset_partitions input_manager_key,
    InputDefinition.init name dagster_type description default_value
      root_manager_key metadata asset_key asset_partitions input_manager_key
    = Ok d.

End RoundTrip.

(** ** A small registry

    Four descriptors and a handful of values, enough to run the definitions
    above on concrete arguments. *)
Module Sample.

Inductive dagster_type : Type := TAny | TInt | TString | TNothing | TNoneType.
Inductive py_object : Type := py_int | py_str | py_nothing | py_literal (z : Z).
Inductive value : Type := VNone | VInt (z : Z) | VStr (s : string).

Definition resolve (o : TypeSpecifier dagster_type py_object) : result dagster_type :=
  match o with
  | PyNone => Ok TAny
  | ParameterEmpty => Err (DagsterInvalidDefinitionError "Invalid type: inspect._empty")
  | NoneType => Ok TNoneType
  | DagsterTypeInstance t => Ok t
  | PyOther py_int => Ok TInt
  | PyOther py_str => Ok TString
  | PyOther py_nothing => Ok TNothing
  | PyOther (py_literal z) =>
      Err (DagsterInvalidDefinitionError ("Invalid type: " +:+ pretty z))
  end.

Definition type_name (t : dagster_type) : string :=
  match t with
  | TAny => "Any" | TInt => "Int" | TString => "String"
  | TNothing => "Nothing" | TNoneType => "NoneType"
  end.

Definition scalar (t : dagster_type) : bool :=
  match t with TInt | TString => true | _ => false end.

Definition scalar_check (t : dagster_type) (v : value) : bool :=
  match t, v with
  | TInt, VInt _ | TString, VStr _ => true
  | _, _ => false
  end.

Definition str (v : value) : string :=
  match v with VNone => "None" | VInt z => pretty z | VStr s => s end.

Definition type_of (v : value) : string :=
  match v with
  | VNone => "<class 'NoneType'>"
  | VInt _ => "<class 'int'>"
  | VStr _ => "<class 'str'>"
  end.

Definition annotation_text (o : TypeSpecifier dagster_type py_object) : string :=
  match o with
  | PyNone => "None"
  | ParameterEmpty => "<class 'inspect._empty'>"
  | NoneType => "<class 'NoneType'>"
  | DagsterTypeInstance t => type_name t
  | PyOther py_int => "<class 'int'>"
  | PyOther py_str => "<class 'str'>"
  | PyOther py_nothing => "Nothing"
  | PyOther (py_literal z) => pretty z
  end.

Definition valid_name (n : string) : result string :=
  if String.eqb n EmptyString
  then Err (DagsterInvalidDefinitionError "not a valid name")
  else Ok n.

#[global] Instance collaborators : Collaborators := {|
  DagsterType := dagster_type;
  PyObject := py_object;
  Value := value;
  InputContext := unit;
  AssetKey := list string;
  RawMetadataValue := string;
  MetadataEntry := string * string;
  resolve_dagster_type := resolve;
  Any := TAny;
  is_nothing := fun t => match t with TNothing => true | _ => false end;
  is_BuiltinScalarDagsterType := scalar;
  type_check_scalar_value := scalar_check;
  display_name := type_name;
  str_value := str;
  str_type_of := type_of;
  str_annotation := annotation_text;
  check_valid_name := valid_name;
  normalize_metadata := fun m => m
|}.

(** an input [x] with no type, no default and nothing else *)
Definition plain_x : InputDefinition.t :=
  {| InputDefinition._name := "x";
     InputDefinition._type_not_set := true;
     InputDefinition._dagster_type := TAny;
     InputDefinition._description := None;
     InputDefinition._default_value := NoValueSentinel;
     InputDefinition._input_manager_key := None;
     InputDefinition._root_manager_key := None;
     InputDefinition._metadata := [];
     InputDefinition._metadata_entries := [];
     InputDefinition._asset_key := None;
     InputDefinition._asset_partitions_fn := None |}.

(** what a signature [def f(x: int = 3)] with docstring text gives for [x] *)
Definition inferred_x : InferredInputProps.t :=
  {| InferredInputProps.name := "x";
     InferredInputProps.annotation := PyOther py_int;
     InferredInputProps.description := Some "an integer";
     InferredInputProps.default_value := Given (VInt 3) |}.

(** an input [x] that carries manager key, metadata and lineage *)
Definition loaded_x : InputDefinition.t :=
  {| InputDefinition._name := "x";
     InputDefinition._type_not_set := false;
     InputDefinition._dagster_type := TString;
     InputDefinition._description := Some "a word";
     InputDefinition._default_value := NoValueSentinel;
     InputDefinition._input_manager_key := Some "io";
     InputDefinition._root_manager_key := None;
     InputDefinition._metadata := [("owner", "team")];
     InputDefinition._metadata_entries := [("owner", "team")];
     InputDefinition._asset_key := Some (InputDefinition.FixedAssetKey ["table"]);
     InputDefinition._asset_partitions_fn := Some (fun _ => {["p1"]}) |}.

(** the merge of [plain_x] with [inferred_x] *)
Definition combined_x : InputDefinition.t :=
  {| InputDefinition._name := "x";
     InputDefinition._type_not_set := false;
     InputDefinition._dagster_type := TInt;
     InputDefinition._description := Some "an integer";
     InputDefinition._default_value := Given (VInt 3);
     InputDefinition._input_manager_key := None;
     InputDefinition._root_manager_key := None;
     InputDefinition._metadata := [];
     InputDefinition._metadata_entries := [];
     InputDefinition._asset_key := None;
     InputDefinition._asset_partitions_fn := None |}.

(** what a signature [def f(x: str)] gives for [x] *)
Definition inferred_word : InferredInputProps.t :=
  {| InferredInputProps.name := "x";
     InferredInputProps.annotation := PyOther py_str;
     InferredInputProps.description := None;
     InferredInputProps.default_value := NoValueSentinel |}.

(** what a signature [def f(x: 3)] gives for [x] *)
Definition inferred_bad : InferredInputProps.t :=
  {| InferredInputProps.name := "x";
     InferredInputProps.annotation := PyOther (py_literal 3);
     InferredInputProps.description := None;
     InferredInputProps.default_value := NoValueSentinel |}.

(** an input [x] whose asset key is computed by a callable object, as
    [InputDefinition("x", asset_key=functools.partial(...))] builds it *)
Definition keyed_x : InputDefinition.t :=
  {| InputDefinition._name := "x";
     InputDefinition._type_not_set := true;
     InputDefinition._dagster_type := TAny;
     InputDefinition._description := None;
     InputDefinition._default_value := NoValueSentinel;
     InputDefinition._input_manager_key := None;
     InputDefinition._root_manager_key := None;
     InputDefinition._metadata := [];
     InputDefinition._metadata_entries := [];
     InputDefinition._asset_key :=
       Some (InputDefinition.AssetKeyFn (CallableObject (fun _ => ["table"])));
     InputDefinition._asset_partitions_fn := None |}.

(** the partitions [{"p1", "p2"}] *)
Definition p1_p2 : gset string := {["p1"; "p2"]}.

(** an input [x] with everything given: [InputDefinition("x", int, "count", 1)] *)
Definition explicit_x : InputDefinition.t :=
  {| InputDefinition._name := "x";
     InputDefinition._type_not_set := false;
     InputDefinition._dagster_type := TInt;
     InputDefinition._description := Some "count";
     InputDefinition._default_value := Given (VInt 1);
     InputDefinition._input_manager_key := None;
     InputDefinition._root_manager_key := None;
     InputDefinition._metadata := [];
     InputDefinition._metadata_entries := [];
     InputDefinition._asset_key := None;
     InputDefinition._asset_partitions_fn := None |}.

(** an input [x] of type [Nothing] *)
Definition nothing_x : InputDefinition.t :=
  {| InputDefinition._name := "x";
     InputDefinition._type_not_set := false;
     InputDefinition._dagster_type := TNothing;
     InputDefinition._description := None;
     InputDefinition._default_value := NoValueSentinel;
     InputDefinition._input_manager_key := None;
     InputDefinition._root_manager_key := None;
     InputDefinition._metadata := [];
     InputDefinition._metadata_entries := [];
     InputDefinition._asset_key := None;
     InputDefinition._asset_partitions_fn := None |}.

(** [InputDefinition("x", asset_partitions=set())] *)
Definition empty_partitions_x : InputDefinition.t :=
  {| InputDefinition._name := "x";
     InputDefinition._type_not_set := true;
     InputDefinition._dagster_type := TAny;
     InputDefinition._description := None;
     InputDefinition._default_value := NoValueSentinel;
     InputDefinition._input_manager_key := None;
     InputDefinition._root_manager_key := None;
     InputDefinition._metadata := [];
     InputDefinition._metadata_entries := [];
     InputDefinition._asset_key := None;
     InputDefinition._asset_partitions_fn := Some (fun _ => ∅) |}.

(** what a signature [def f(x)] gives for [x]: no annotation, no
    description, no default *)
Definition inferred_blank : InferredInputProps.t :=
  {| InferredInputProps.name := "x";
     InferredInputProps.annotation := ParameterEmpty;
     InferredInputProps.description := None;
     InferredInputProps.default_value := NoValueSentinel |}.

(** what a signature [def f(y: int)] gives for [y] *)
Definition inferred_y : InferredInputProps.t :=
  {| InferredInputProps.name := "y";
     InferredInputProps.annotation := PyOther py_int;
     InferredInputProps.description := None;
     InferredInputProps.default_value := NoValueSentinel |}.

End Sample.

(** * Properties *)

(** Splits a hypothesis [x ← r; k = Ok _] into [r = Ok x] and the rest. *)
Ltac bind_inv H :=
  repeat
    (unfold mbind, result_bind in H;
     match type of H with
     | match ?r with Ok _ => _ | Err _ => _ end = Ok _ =>
         let E := fresh "E" in
         destruct r eqn:E; [ | discriminate H ]
     end).

Section Construction.
Context {C : Collaborators}.
Import InputDefinition.

Lemma check_default_value_Ok input_name ty dv dv' :
  _check_default_value input_name ty dv = Ok dv' -> dv' = dv.
Proof.
  unfold _check_default_value.
  destruct dv as [ | v]; [ congruence | ].
  destruct (is_nothing ty); [ discriminate | ].
  destruct (is_BuiltinScalarDagsterType ty); [ | congruence ].
  destruct (type_check_scalar_value ty v); [ congruence | discriminate ].
Qed.

Lemma check_asset_partitions_Ok ak ap :
  check_asset_partitions ak ap = Ok tt <->
  (truthy_asset_partitions ap = true -> ak <> None).
Proof.
  unfold check_asset_partitions, check.param_invariant.
  destruct (truthy_asset_partitions ap), ak; split; intros H;
    try reflexivity; try discriminate; try congruence.
  exfalso. now apply H.
Qed.

(** What a successful call of the constructor went through, and what it
    stored. *)
Lemma init_Ok_inv name ty desc dv rmk md ak ap imk d :
  init name ty desc dv rmk md ak ap imk = Ok d ->
  exists name' ty',
    check_valid_name name = Ok name' /\
    resolve_dagster_type ty = Ok ty' /\
    _check_default_value name' ty' dv = Ok dv /\
    check_manager_keys rmk imk = Ok tt /\
    check_asset_partitions ak ap = Ok tt /\
    d = {| _name := name';
           _type_not_set := match ty with PyNone => true | _ => false end;
           _dagster_type := ty';
           _description := desc;
           _default_value := dv;
           _input_manager_key := imk;
           _root_manager_key := rmk;
           _metadata := check.opt_dict_param md;
           _metadata_entries := normalize_metadata (check.opt_dict_param md);
           _asset_key := ak;
           _asset_partitions_fn := asset_partitions_fn_of ap |}.
Proof.
  intros H. unfold init in H. bind_inv H.
  pose proof (check_default_value_Ok _ _ _ _ E1) as ->.
  repeat match goal with u : unit |- _ => destruct u end.
  exists a, a0. repeat split; try assumption. congruence.
Qed.

(** The converse: the five checks are all the constructor asks for. *)
Lemma init_Ok_intro name ty desc dv rmk md ak ap imk name' ty' :
  check_valid_name name = Ok name' ->
  resolve_dagster_type ty = Ok ty' ->
  _check_default_value name' ty' dv = Ok dv ->
  check_manager_keys rmk imk = Ok tt ->
  check_asset_partitions ak ap = Ok tt ->
  init name ty desc dv rmk md ak ap imk
  = Ok {| _name := name';
          _type_not_set := match ty with PyNone => true | _ => false end;
          _dagster_type := ty';
          _description := desc;
          _default_value := dv;
          _input_manager_key := imk;
          _root_manager_key := rmk;
          _metadata := check.opt_dict_param md;
          _metadata_entries := normalize_metadata (check.opt_dict_param md);
          _asset_key := ak;
          _asset_partitions_fn := asset_partitions_fn_of ap |}.
Proof.
  intros Hn Ht Hd Hk Hp. unfold init, mbind, result_bind.
  now rewrite Hn, Ht, Hd, Hk, Hp.
Qed.

(** A function handed to the constructor is stored as it is. *)
Lemma asset_partitions_fn_of_fn (f : option (InputContext -> gset string)) :
  asset_partitions_fn_of (option_map PartitionFn f) = f.
Proof. now destruct f. Qed.

End Construction.

Section Merge.
Context {C : Collaborators} {L : CollaboratorLaws C}.
Import InputDefinition.

(** The declaration [combine_with_inferred] returns, field by field. *)
Lemma combine_with_inferred_inv d i d' :
  combine_with_inferred d i = Ok d' ->
  exists ty,
    name d = InferredInputProps.name i /\
    (if _type_not_set d then _checked_inferred_type i else Ok (_dagster_type d))
    = Ok ty /\
    d' = {| _name := name d;
            _type_not_set := false;
            _dagster_type := ty;
            _description :=
              match _description d, InferredInputProps.description i with
              | None, Some s => Some s
              | description, _ => description
              end;
            _default_value :=
              if negb (has_default_value d) then InferredInputProps.default_value i
              else _default_value d;
            _input_manager_key := _input_manager_key d;
            _root_manager_key := _root_manager_key d;
            _metadata := _metadata d;
            _metadata_entries := normalize_metadata (_metadata d);
            _asset_key := _asset_key d;
            _asset_partitions_fn := _asset_partitions_fn d |}.
Proof.
  intros H. unfold combine_with_inferred in H.
  unfold mbind at 1, result_bind at 1 in H.
  destruct (check.invariant _ _) as [ [] | ] eqn:Hname; [ | discriminate H ].
  unfold mbind at 1, result_bind at 1 in H.
  destruct (if _type_not_set d then _ else _) as [ty | ] eqn:Hty; [ | discriminate H ].
  apply init_Ok_inv in H as (n' & ty' & Hn & Ht & _ & _ & _ & ->).
  rewrite resolve_instance in Ht. injection Ht as <-.
  apply check_valid_name_same in Hn as ->.
  rewrite asset_partitions_fn_of_fn. cbn [check.opt_dict_param].
  exists ty. repeat split.
  unfold check.invariant in Hname.
  destruct (String.eqb _ _) eqn:Heq; [ | discriminate Hname ].
  now apply String.eqb_eq.
Qed.

(** When the names differ the call stops at its [check.invariant]. *)
Lemma combine_with_inferred_name_mismatch d i :
  name d <> InferredInputProps.name i ->
  exists msg, combine_with_inferred d i = Err (CheckError msg).
Proof.
  intros Hne. unfold combine_with_inferred, check.invariant.
  destruct (String.eqb _ _) eqn:Heq.
  - apply String.eqb_eq in Heq. contradiction.
  - eexists. reflexivity.
Qed.

(** The call does return once the names agree, the type to use is known
    and the constructor accepts the merged arguments. *)
Lemma combine_with_inferred_returns d i ty :
  name d = InferredInputProps.name i ->
  (if _type_not_set d then _checked_inferred_type i else Ok (_dagster_type d))
  = Ok ty ->
  check_valid_name (name d) = Ok (name d) ->
  (let dv := if negb (has_default_value d) then InferredInputProps.default_value i
             else _default_value d in
   _check_default_value (name d) ty dv = Ok dv) ->
  check_manager_keys (_root_manager_key d) (_input_manager_key d) = Ok tt ->
  (_asset_partitions_fn d <> None -> _asset_key d <> None) ->
  exists d', combine_with_inferred d i = Ok d'.
Proof.
  intros Hname Hty Hn Hdv Hk Hp. unfold combine_with_inferred, check.invariant.
  rewrite (proj2 (String.eqb_eq _ _) Hname).
  unfold mbind at 1, result_bind at 1.
  unfold mbind at 1, result_bind at 1. rewrite Hty.
  eexists. eapply init_Ok_intro; eauto using resolve_instance.
  apply check_asset_partitions_Ok.
  destruct (_asset_partitions_fn d); [ intros _; apply Hp | ]; discriminate.
Qed.

(** C1.  In the declaration that [combine_with_inferred] returns for an
    inferred record of the same name, the type is the declaration's own when
    it was given explicitly and the resolution of the inferred annotation
    otherwise; the description is the declaration's own when it is set and
    the inferred one otherwise; the default is the declaration's own when
    it has one and the inferred one otherwise.  The three are chosen
    independently of each other. *)
Theorem combine_with_inferred_precedence d i d' :
  name d = InferredInputProps.name i ->
  combine_with_inferred d i = Ok d' ->
  (_type_not_set d = false -> dagster_type d' = dagster_type d) /\
  (_type_not_set d = true -> _checked_inferred_type i = Ok (dagster_type d')) /\
  description d' = match description d with
                   | Some s => Some s
                   | None => InferredInputProps.description i
                   end /\
  _default_value d' = (if has_default_value d then _default_value d
                       else InferredInputProps.default_value i) /\
  has_default_value d' = (has_default_value d
                          || is_given (InferredInputProps.default_value i)).
Proof.
  intros _ H. apply combine_with_inferred_inv in H as (ty & _ & Hty & ->).
  unfold dagster_type, description, has_default_value. cbn.
  repeat split.
  - intros Hset. rewrite Hset in Hty. congruence.
  - intros Hset. now rewrite Hset in Hty.
  - destruct (_description d), (InferredInputProps.description i); reflexivity.
  - now destruct (_default_value d).
  - now destruct (_default_value d).
Qed.

(** C2, as the code has it.  The declaration that [combine_with_inferred]
    returns has the name, both manager keys, the metadata, the asset key and
    the asset partitions of the declaration it was called on.  Besides the
    type, the description and the default, one more field can differ: the
    flag [_type_not_set], which is [False] in every returned declaration,
    also when the original had no explicit type.  Everything else is the
    original's (the metadata entries being the normalisation of its
    metadata, as they are in every constructed declaration). *)
Theorem combine_with_inferred_frame d i d' :
  combine_with_inferred d i = Ok d' ->
  name d' = name d /\
  root_manager_key d' = root_manager_key d /\
  input_manager_key d' = input_manager_key d /\
  metadata d' = metadata d /\
  _asset_key d' = _asset_key d /\
  _asset_partitions_fn d' = _asset_partitions_fn d /\
  (forall context, get_asset_key d' context = get_asset_key d context) /\
  (forall context,
      get_asset_partitions d' context = get_asset_partitions d context) /\
  _type_not_set d' = false /\
  (constructed d -> metadata_entries d' = metadata_entries d) /\
  d' = {| _name := _name d;
          _type_not_set := false;
          _dagster_type := _dagster_type d';
          _description := _description d';
          _default_value := _default_value d';
          _input_manager_key := _input_manager_key d;
          _root_manager_key := _root_manager_key d;
          _metadata := _metadata d;
          _metadata_entries := normalize_metadata (_metadata d);
          _asset_key := _asset_key d;
          _asset_partitions_fn := _asset_partitions_fn d |}.
Proof.
  intros H. apply combine_with_inferred_inv in H as (ty & _ & _ & ->).
  repeat split.
  intros (n & t & desc & dv & rmk & md & ak & ap & imk & Hd).
  now apply init_Ok_inv in Hd as (n' & t' & _ & _ & _ & _ & _ & ->).
Qed.

(** The returned declaration counts as explicitly typed, whatever the
    original did. *)
Lemma combine_with_inferred_type_set d i d' :
  combine_with_inferred d i = Ok d' -> _type_not_set d' = false.
Proof.
  intros H. now apply combine_with_inferred_inv in H as (ty & _ & _ & ->).
Qed.

End Merge.

Section Templates.
Context {C : Collaborators} {L : CollaboratorLaws C}.
Import InputDefinition.

(** [In.from_definition] succeeds when the asset key passes the class test
    of [In.__new__]. *)
Lemma from_definition_Ok d :
  check_manager_keys (_root_manager_key d) (_input_manager_key d) = Ok tt ->
  In.check_asset_key (_asset_key d) = Ok (_asset_key d) ->
  In.from_definition d
  = Ok {| In.dagster_type := Given (_dagster_type d);
          In.description := _description d;
          In.default_value := _default_value d;
          In.root_manager_key := _root_manager_key d;
          In.metadata := _metadata d;
          In.asset_key := _asset_key d;
          In.asset_partitions := option_map PartitionFn (_asset_partitions_fn d);
          In.input_manager_key := _input_manager_key d |}.
Proof.
  intros Hk Ha. unfold In.from_definition, In.new, mbind, result_bind.
  now rewrite Hk, resolve_instance, Ha.
Qed.

Lemma check_asset_key_Ok (ak : option AssetKeyArg) :
  (forall f, ak = Some (AssetKeyFn f) -> is_FunctionType f = true) ->
  In.check_asset_key ak = Ok ak.
Proof.
  intros H. destruct ak as [ [k | f] | ]; cbn; try reflexivity.
  now rewrite (H f eq_refl).
Qed.

(** C3, as the code has it.  For a constructed declaration whose asset key,
    when it is a callable, is a plain function, and which has an asset key
    whenever it has a partitions function, turning it into an [In] and
    back under its own name succeeds and gives a declaration with the same
    name, type, description, default, manager keys, metadata, asset key
    and asset partitions. *)
Theorem round_trip_preserves d :
  constructed d ->
  (forall f, _asset_key d = Some (AssetKeyFn f) -> is_FunctionType f = true) ->
  (_asset_partitions_fn d <> None -> _asset_key d <> None) ->
  exists d',
    round_trip d = Ok d' /\
    name d' = name d /\
    dagster_type d' = dagster_type d /\
    description d' = description d /\
    _default_value d' = _default_value d /\
    has_default_value d' = has_default_value d /\
    root_manager_key d' = root_manager_key d /\
    input_manager_key d' = input_manager_key d /\
    metadata d' = metadata d /\
    metadata_entries d' = metadata_entries d /\
    _asset_key d' = _asset_key d /\
    _asset_partitions_fn d' = _asset_partitions_fn d.
Proof.
  intros (n & ty & desc & dv & rmk & md & ak & ap & imk & Hinit) Hfn Hpart.
  apply init_Ok_inv in Hinit as (n' & ty' & Hn & Ht & Hdv & Hk & Hp & ->).
  cbn in Hfn, Hpart.
  pose proof (check_valid_name_same _ _ Hn) as ->.
  unfold round_trip.
  rewrite from_definition_Ok by (cbn; auto using check_asset_key_Ok).
  unfold mbind, result_bind, In.to_definition, name. cbn.
  erewrite init_Ok_intro; eauto using resolve_instance.
  - eexists. split; [ reflexivity | ].
    cbn. rewrite asset_partitions_fn_of_fn. repeat split.
  - apply check_asset_partitions_Ok.
    destruct (asset_partitions_fn_of ap); [ intros _; apply Hpart | ]; discriminate.
Qed.

(** A declaration built from the empty set of partitions and no asset key
    does not survive the round trip: the stored [lambda] is true where the
    empty set was false, and the constructor now asks for the asset key. *)
Lemma round_trip_empty_partitions n ty desc dv rmk md imk d :
  init n ty desc dv rmk md None (Some (PartitionSet ∅)) imk = Ok d ->
  exists msg, round_trip d = Err (ParameterCheckError "asset_partitions" msg).
Proof.
  intros Hinit.
  apply init_Ok_inv in Hinit as (n' & ty' & Hn & Ht & Hdv & Hk & Hp & ->).
  pose proof (check_valid_name_same _ _ Hn) as ->.
  unfold round_trip. rewrite from_definition_Ok by (cbn; auto).
  unfold mbind at 1, result_bind at 1.
  unfold In.to_definition, init, name, mbind, result_bind. cbn.
  rewrite Hn, resolve_instance, Hdv, Hk. cbn. eexists. reflexivity.
Qed.

End Templates.

Section Mappings.
Context {C : Collaborators}.
Import InputMapping.

(** C4.  [maps_to] is the fan-in pointer to the mapped node and input with
    the stored index exactly when an index is stored, and the plain pointer
    exactly when none is; so a [mapping_to] without index maps to a plain
    pointer and one with index [k] to a fan-in pointer of index [k]. *)
Theorem maps_to_variant (m : InputMapping.t) :
  (forall k, fan_in_index m = Some k <->
             maps_to m = FanInInputPointer (mapped_node_name m)
                           (mapped_node_input_name m) k) /\
  (fan_in_index m = None <->
   maps_to m = InputPointer (mapped_node_name m) (mapped_node_input_name m)) /\
  (forall (d : InputDefinition.t) node port,
      maps_to (mapping_to d node port None) = InputPointer node port) /\
  (forall (d : InputDefinition.t) node port k,
      maps_to (mapping_to d node port (Some k)) = FanInInputPointer node port k).
Proof.
  repeat split; unfold maps_to; try (destruct (fan_in_index m)); cbn; congruence.
Qed.

(** C5, as the code has it.  The index of a mapping is the integer that was
    handed over, of either sign: [mapping_to] and the constructor of
    [InputMapping] store it unchanged and set no lower bound. *)
Theorem fan_in_index_stored (d : InputDefinition.t) node port (k : option Z) :
  fan_in_index (mapping_to d node port k) = k /\
  (forall g n p desc ty, fan_in_index (InputMapping.mk g n p k desc ty) = k).
Proof. split; reflexivity. Qed.

(** C6.  [describe] gives the graph input name, an arrow, the mapped node,
    a colon and the mapped input, followed by the index in decimal when
    there is one and by nothing otherwise. *)
Theorem describe_format (m : InputMapping.t) :
  describe m
  = graph_input_name m +:+ " -> " +:+ mapped_node_name m +:+ ":"
    +:+ mapped_node_input_name m
    +:+ match fan_in_index m with
        | Some i => pretty i
        | None => EmptyString
        end /\
  (forall desc ty,
      describe (InputMapping.mk "x" "node" "port" (Some 2) desc ty)
      = "x -> node:port2") /\
  (forall desc ty,
      describe (InputMapping.mk "x" "node" "port" None desc ty)
      = "x -> node:port").
Proof.
  repeat split. unfold describe, maps_to.
  now destruct (fan_in_index m).
Qed.

End Mappings.

Section Strings.

Lemma append_assoc (a b c : string) : (a +:+ b) +:+ c = a +:+ b +:+ c.
Proof.
  induction a as [ | x a IH]; [ reflexivity | ].
  change (String x ((a +:+ b) +:+ c) = String x (a +:+ b +:+ c)).
  now f_equal.
Qed.

Lemma contains_here (pre needle post : string) :
  contains needle (pre +:+ needle +:+ post).
Proof. now exists pre, post. Qed.

Lemma contains_later (pre hay needle : string) :
  contains needle hay -> contains needle (pre +:+ hay).
Proof.
  intros (p & q & ->). exists (pre +:+ p), q. now rewrite append_assoc.
Qed.

End Strings.

Section Validation.
Context {C : Collaborators} {L : CollaboratorLaws C}.
Import InputDefinition.

(** C7.  Once the name is accepted and the type resolves to a descriptor
    with [is_nothing], the constructor raises [DagsterInvalidDefinitionError]
    for every default value that is not the sentinel, whatever the other
    arguments; with the sentinel the check of the default passes, and the
    construction succeeds whenever the checks of the manager keys and of
    the asset partitions do. *)
Theorem nothing_type_rejects_default nm ty desc rmk md ak ap imk nm' t :
  check_valid_name nm = Ok nm' ->
  resolve_dagster_type ty = Ok t ->
  is_nothing t = true ->
  (forall v,
      init nm ty desc (Given v) rmk md ak ap imk
      = Err (DagsterInvalidDefinitionError
               "Setting a default_value is invalid on InputDefinitions of type Nothing")) /\
  (forall input_name v,
      _check_default_value input_name t (Given v)
      = Err (DagsterInvalidDefinitionError
               "Setting a default_value is invalid on InputDefinitions of type Nothing")) /\
  (forall input_name,
      _check_default_value input_name t NoValueSentinel = Ok NoValueSentinel) /\
  (check_manager_keys rmk imk = Ok tt ->
   check_asset_partitions ak ap = Ok tt ->
   exists d,
     init nm ty desc NoValueSentinel rmk md ak ap imk = Ok d /\
     dagster_type d = t /\ has_default_value d = false).
Proof.
  intros Hn Ht Hnothing. repeat split.
  - intros v. unfold init, mbind, result_bind. rewrite Hn, Ht.
    unfold _check_default_value. now rewrite Hnothing.
  - intros input_name v. unfold _check_default_value. now rewrite Hnothing.
  - intros Hk Hp. eexists. split.
    + exact (init_Ok_intro nm ty desc NoValueSentinel rmk md ak ap imk nm' t
               Hn Ht eq_refl Hk Hp).
    + split; reflexivity.
Qed.

(** C8, as the code has it.  With a non-empty set of partitions and no
    asset key the constructor always fails; when the name, the type, the
    default and the manager keys pass their checks, what it raises is the
    [ParameterCheckError] of [check.param_invariant] for the parameter
    [asset_partitions]. *)
Theorem partitions_need_asset_key nm ty desc dv rmk md imk (s : gset string) :
  s <> ∅ ->
  (exists e, init nm ty desc dv rmk md None (Some (PartitionSet s)) imk = Err e) /\
  (forall nm' t,
      check_valid_name nm = Ok nm' ->
      resolve_dagster_type ty = Ok t ->
      _check_default_value nm' t dv = Ok dv ->
      check_manager_keys rmk imk = Ok tt ->
      exists msg,
        init nm ty desc dv rmk md None (Some (PartitionSet s)) imk
        = Err (ParameterCheckError "asset_partitions" msg) /\
        contains "asset_key" msg).
Proof.
  intros Hs.
  assert (Hp : exists msg,
             check_asset_partitions None (Some (PartitionSet s))
             = Err (ParameterCheckError "asset_partitions" msg) /\
             contains "asset_key" msg).
  { unfold check_asset_partitions, truthy_asset_partitions, check.param_invariant.
    rewrite bool_decide_eq_false_2 by assumption. cbn [negb].
    eexists. split; [ reflexivity | ].
    do 6 apply contains_later. now exists EmptyString, dquote. }
  destruct Hp as (msg & Hp & Hmsg). split.
  - unfold init, mbind, result_bind.
    destruct (check_valid_name nm); [ | eauto ].
    destruct (resolve_dagster_type ty); [ | eauto ].
    destruct (_check_default_value _ _ dv); [ | eauto ].
    destruct (check_manager_keys rmk imk); [ | eauto ].
    rewrite Hp. eauto.
  - intros nm' t Hn Ht Hd Hk. exists msg. split; [ | assumption ].
    unfold init, mbind, result_bind. now rewrite Hn, Ht, Hd, Hk, Hp.
Qed.

(** An annotation that is neither missing nor [None] goes to the resolver
    unchanged. *)
Lemma checked_inferred_type_other (i : InferredInputProps.t) :
  InferredInputProps.annotation i <> ParameterEmpty ->
  InferredInputProps.annotation i <> PyNone ->
  _checked_inferred_type i
  = reraise_inferred i (resolve_dagster_type (InferredInputProps.annotation i)).
Proof.
  intros H1 H2. unfold _checked_inferred_type.
  destruct (InferredInputProps.annotation i); congruence.
Qed.

(** C9.  [_checked_inferred_type] has three cases.  With no annotation the
    type is [Any], the resolution of [None].  With the annotation [None]
    it is the resolution of the class [type(None)].  Any other annotation
    is resolved as it stands, and a [DagsterError] raised on the way comes
    out as a [DagsterInvalidDefinitionError] whose message holds the name
    of the input and the text of the annotation. *)
Theorem checked_inferred_type_cases (i : InferredInputProps.t) :
  (InferredInputProps.annotation i = ParameterEmpty ->
   _checked_inferred_type i = Ok Any) /\
  (InferredInputProps.annotation i = PyNone ->
   forall t, resolve_dagster_type NoneType = Ok t ->
             _checked_inferred_type i = Ok t) /\
  (InferredInputProps.annotation i <> ParameterEmpty ->
   InferredInputProps.annotation i <> PyNone ->
   (forall t, resolve_dagster_type (InferredInputProps.annotation i) = Ok t ->
              _checked_inferred_type i = Ok t) /\
   (forall e, resolve_dagster_type (InferredInputProps.annotation i) = Err e ->
              is_DagsterError e = true ->
              exists msg,
                _checked_inferred_type i = Err (DagsterInvalidDefinitionError msg) /\
                contains (InferredInputProps.name i) msg /\
                contains (str_annotation (InferredInputProps.annotation i)) msg)).
Proof.
  repeat split.
  - intros H. unfold _checked_inferred_type. now rewrite H, resolve_None.
  - intros H t Ht. unfold _checked_inferred_type. now rewrite H, Ht.
  - intros t Ht. now rewrite checked_inferred_type_other, Ht.
  - intros e He Hkind. rewrite checked_inferred_type_other, He by assumption.
    unfold reraise_inferred. rewrite Hkind.
    eexists. split; [ reflexivity | split ].
    + do 3 apply contains_later. exists EmptyString. eexists. reflexivity.
    + apply contains_here.
Qed.

(** An exception of [resolve_dagster_type] that is not a [DagsterError]
    passes through [_checked_inferred_type] as it is. *)
Lemma checked_inferred_type_other_exception (i : InferredInputProps.t) e :
  InferredInputProps.annotation i <> ParameterEmpty ->
  InferredInputProps.annotation i <> PyNone ->
  resolve_dagster_type (InferredInputProps.annotation i) = Err e ->
  is_DagsterError e = false ->
  _checked_inferred_type i = Err e.
Proof.
  intros H1 H2 He Hkind. rewrite checked_inferred_type_other, He by assumption.
  unfold reraise_inferred. now rewrite Hkind.
Qed.

(** C10.  With the empty set of partitions and no asset key the check that
    asks for an asset key is skipped: the construction succeeds as soon as
    the name, the type, the default and the manager keys pass, and on the
    declaration obtained [get_asset_partitions] returns the empty set, not
    [None], in every context. *)
Theorem empty_partitions_accepted nm ty desc dv rmk md imk nm' t :
  check_valid_name nm = Ok nm' ->
  resolve_dagster_type ty = Ok t ->
  _check_default_value nm' t dv = Ok dv ->
  check_manager_keys rmk imk = Ok tt ->
  check_asset_partitions None (Some (PartitionSet ∅)) = Ok tt /\
  exists d,
    init nm ty desc dv rmk md None (Some (PartitionSet ∅)) imk = Ok d /\
    _asset_key d = None /\
    forall context : InputContext, get_asset_partitions d context = Some ∅.
Proof.
  intros Hn Ht Hd Hk. split; [ reflexivity | ].
  eexists. split.
  - exact (init_Ok_intro nm ty desc dv rmk md None (Some (PartitionSet ∅)) imk
             nm' t Hn Ht Hd Hk eq_refl).
  - split; reflexivity.
Qed.

End Validation.

(** ** The statements on the small registry *)

Lemma sample_laws : CollaboratorLaws Sample.collaborators.
Proof.
  split; try reflexivity.
  intros n n'. cbn. unfold Sample.valid_name.
  destruct (String.eqb n EmptyString); [ discriminate | congruence ].
Qed.

Lemma plain_x_constructed : constructed Sample.plain_x.
Proof.
  exists "x", PyNone, None, NoValueSentinel, None, None, None, None, None.
  reflexivity.
Qed.

Lemma loaded_x_constructed : constructed Sample.loaded_x.
Proof.
  exists "x", (PyOther Sample.py_str), (Some "a word"), NoValueSentinel, None,
    (Some [("owner", "team")]),
    (Some (@InputDefinition.FixedAssetKey Sample.collaborators ["table"])),
    (Some (@InputDefinition.PartitionFn Sample.collaborators (fun _ => {["p1"]}))),
    (Some "io").
  reflexivity.
Qed.

Lemma keyed_x_constructed : constructed Sample.keyed_x.
Proof.
  exists "x", PyNone, None, NoValueSentinel, None, None,
    (Some (@InputDefinition.AssetKeyFn Sample.collaborators
             (CallableObject (fun _ => ["table"])))),
    None, None.
  reflexivity.
Qed.

Lemma combine_with_inferred_precedence_witness :
  name Sample.plain_x = InferredInputProps.name Sample.inferred_x /\
  combine_with_inferred Sample.plain_x Sample.inferred_x = Ok Sample.combined_x /\
  _checked_inferred_type Sample.inferred_x = Ok (dagster_type Sample.combined_x) /\
  description Sample.combined_x = Some "an integer" /\
  InputDefinition._default_value Sample.combined_x = Given (Sample.VInt 3).
Proof.
  destruct (combine_with_inferred_precedence (L := sample_laws)
              Sample.plain_x Sample.inferred_x Sample.combined_x
              eq_refl eq_refl) as (_ & Hty & Hdesc & Hdv & _).
  split; [ reflexivity | ]. split; [ reflexivity | ].
  split; [ exact (Hty eq_refl) | ]. split; [ exact Hdesc | exact Hdv ].
Defined.

Lemma combine_with_inferred_frame_witness :
  combine_with_inferred Sample.loaded_x Sample.inferred_word = Ok Sample.loaded_x /\
  name Sample.loaded_x = "x" /\
  input_manager_key Sample.loaded_x = Some "io" /\
  metadata Sample.loaded_x = [("owner", "team")].
Proof.
  destruct (combine_with_inferred_frame (L := sample_laws)
              Sample.loaded_x Sample.inferred_word Sample.loaded_x eq_refl)
    as (Hn & _ & Hi & Hm & _).
  split; [ reflexivity | ]. split; [ exact Hn | ]. split; [ exact Hi | exact Hm ].
Defined.

(** C2 as the specification words it fails on [plain_x] merged with a
    signature that says nothing about [x]: type, description and default
    come out as they were, and the declarations still differ, in the flag
    [_type_not_set].  The difference shows in a later merge, which infers
    the type [Int] for the original and keeps [Any] for the returned
    declaration. *)
Lemma combine_with_inferred_flips_type_flag :
  exists d',
    combine_with_inferred Sample.plain_x Sample.inferred_blank = Ok d' /\
    dagster_type d' = dagster_type Sample.plain_x /\
    description d' = description Sample.plain_x /\
    InputDefinition._default_value d'
    = InputDefinition._default_value Sample.plain_x /\
    InputDefinition._type_not_set d'
    <> InputDefinition._type_not_set Sample.plain_x /\
    d' <> Sample.plain_x /\
    exists a b,
      combine_with_inferred Sample.plain_x Sample.inferred_x = Ok a /\
      combine_with_inferred d' Sample.inferred_x = Ok b /\
      dagster_type a = Sample.TInt /\ dagster_type b = Sample.TAny.
Proof.
  eexists. split; [ reflexivity | ].
  repeat split; try discriminate.
  eexists. eexists. repeat split.
Qed.

Lemma round_trip_preserves_witness :
  exists d',
    round_trip Sample.loaded_x = Ok d' /\
    name d' = "x" /\
    dagster_type d' = Sample.TString /\
    description d' = Some "a word" /\
    InputDefinition._asset_key d' = InputDefinition._asset_key Sample.loaded_x /\
    InputDefinition._asset_partitions_fn d'
    = InputDefinition._asset_partitions_fn Sample.loaded_x.
Proof.
  destruct (round_trip_preserves (L := sample_laws) Sample.loaded_x
              loaded_x_constructed
              ltac:(intros f H; discriminate H)
              ltac:(intros _; discriminate))
    as (d' & Hr & Hn & Ht & Hd & _ & _ & _ & _ & _ & _ & Hk & Hp).
  exists d'. repeat split; assumption.
Defined.

(** C3 as the specification words it fails on [keyed_x]: the declaration is
    constructed, and [In.from_definition] rejects its asset key, a callable
    that is not a function. *)
Lemma round_trip_rejects_callable_object :
  constructed Sample.keyed_x /\
  round_trip Sample.keyed_x
  = Err (ParameterCheckError "asset_key" "(AssetKey, FunctionType)") /\
  ~ exists d', round_trip Sample.keyed_x = Ok d'.
Proof.
  split; [ exact keyed_x_constructed | ].
  split; [ reflexivity | ].
  intros (d' & H). discriminate H.
Qed.

(** C5 as the specification words it fails on a mapping of [plain_x] with index
    [-1]: the mapping is built and keeps the negative index. *)
Lemma fan_in_index_negative :
  constructed Sample.plain_x /\
  exists k,
    InputMapping.fan_in_index
      (mapping_to Sample.plain_x "node" "port" (Some (-1))) = Some k /\
    k < 0 /\
    InputMapping.maps_to (mapping_to Sample.plain_x "node" "port" (Some (-1)))
    = FanInInputPointer "node" "port" k.
Proof.
  split; [ exact plain_x_constructed | ].
  exists (-1). repeat split.
Qed.

Lemma nothing_type_rejects_default_witness :
  InputDefinition.init "data" (PyOther Sample.py_nothing) None
    (Given (Sample.VInt 0)) None None None None None
  = Err (DagsterInvalidDefinitionError
           "Setting a default_value is invalid on InputDefinitions of type Nothing") /\
  exists d,
    InputDefinition.init "data" (PyOther Sample.py_nothing) None
      NoValueSentinel None None None None None = Ok d /\
    dagster_type d = Sample.TNothing /\ has_default_value d = false.
Proof.
  destruct (nothing_type_rejects_default (C := Sample.collaborators)
              "data" (PyOther Sample.py_nothing) None None None None None None
              "data" Sample.TNothing eq_refl eq_refl eq_refl)
    as (Hfail & _ & _ & Hok).
  split; [ exact (Hfail (Sample.VInt 0)) | exact (Hok eq_refl eq_refl) ].
Defined.

Lemma p1_p2_not_empty : Sample.p1_p2 <> ∅.
Proof. intros H. apply (f_equal size) in H. vm_compute in H. discriminate H. Qed.

Lemma partitions_need_asset_key_witness :
  exists msg,
    InputDefinition.init "x" PyNone None NoValueSentinel None None None
      (Some (InputDefinition.PartitionSet Sample.p1_p2)) None
    = Err (ParameterCheckError "asset_partitions" msg) /\
    contains "asset_key" msg.
Proof.
  destruct (partitions_need_asset_key (C := Sample.collaborators)
              "x" PyNone None NoValueSentinel None None None Sample.p1_p2
              p1_p2_not_empty) as (_ & H).
  exact (H "x" Sample.TAny eq_refl eq_refl eq_refl eq_refl).
Defined.

(** C8 as the specification words it fails on [{"p1", "p2"}]: the construction
    fails, and what it raises is not a [DagsterInvalidDefinitionError]. *)
Lemma partitions_error_is_check_error :
  exists e,
    InputDefinition.init (C := Sample.collaborators) "x" PyNone None
      NoValueSentinel None None None
      (Some (InputDefinition.PartitionSet Sample.p1_p2)) None = Err e /\
    is_DagsterInvalidDefinitionError e = false /\
    is_DagsterError e = false.
Proof.
  eexists. split; [ vm_compute; reflexivity | ]. split; reflexivity.
Qed.

Lemma checked_inferred_type_cases_witness :
  exists msg,
    _checked_inferred_type Sample.inferred_bad
    = Err (DagsterInvalidDefinitionError msg) /\
    contains "x" msg /\ contains "3" msg.
Proof.
  destruct (checked_inferred_type_cases (L := sample_laws) Sample.inferred_bad)
    as (_ & _ & H).
  destruct (H ltac:(discriminate) ltac:(discriminate)) as (_ & Herr).
  exact (Herr (DagsterInvalidDefinitionError "Invalid type: 3") eq_refl eq_refl).
Defined.

Lemma empty_partitions_accepted_witness :
  exists d,
    InputDefinition.init (C := Sample.collaborators) "x" PyNone None
      NoValueSentinel None None None (Some (InputDefinition.PartitionSet ∅)) None
    = Ok d /\
    InputDefinition._asset_key d = None /\
    forall context : unit, get_asset_partitions d context = Some ∅.
Proof.
  destruct (empty_partitions_accepted (C := Sample.collaborators)
              "x" PyNone None NoValueSentinel None None None "x" Sample.TAny
              eq_refl eq_refl eq_refl eq_refl) as (_ & H).
  exact H.
Defined.

(** * Further properties of the constructors *)

Section Constructor.
Context {C : Collaborators} {L : CollaboratorLaws C}.
Import InputDefinition.

(** A declaration that came out of the constructor passes the checks of the
    constructor again, under its own name. *)
Lemma constructed_inv d :
  constructed d ->
  check_valid_name (name d) = Ok (name d) /\
  _check_default_value (name d) (_dagster_type d) (_default_value d)
  = Ok (_default_value d) /\
  check_manager_keys (_root_manager_key d) (_input_manager_key d) = Ok tt /\
  _metadata_entries d = normalize_metadata (_metadata d).
Proof.
  intros (n & ty & desc & dv & rmk & md & ak & ap & imk & H).
  apply init_Ok_inv in H as (n' & ty' & Hn & Ht & Hdv & Hk & Hp & ->).
  pose proof (check_valid_name_same _ _ Hn) as ->.
  cbn. repeat split; assumption.
Qed.

(** Without an asset key, an [asset_partitions] argument that counts as true
    stops the constructor, whatever else is passed. *)
Lemma init_partitions_without_key nm ty desc dv rmk md imk ap :
  truthy_asset_partitions ap = true ->
  (exists e, init nm ty desc dv rmk md None ap imk = Err e) /\
  (forall nm' t,
      check_valid_name nm = Ok nm' ->
      resolve_dagster_type ty = Ok t ->
      _check_default_value nm' t dv = Ok dv ->
      check_manager_keys rmk imk = Ok tt ->
      exists msg,
        init nm ty desc dv rmk md None ap imk
        = Err (ParameterCheckError "asset_partitions" msg)).
Proof.
  intros Hap.
  assert (Hp : exists msg, check_asset_partitions None ap
                           = Err (ParameterCheckError "asset_partitions" msg)).
  { unfold check_asset_partitions, check.param_invariant. rewrite Hap.
    eexists. reflexivity. }
  destruct Hp as (msg & Hp). split.
  - unfold init, mbind, result_bind.
    destruct (check_valid_name nm); [ | eauto ].
    destruct (resolve_dagster_type ty); [ | eauto ].
    destruct (_check_default_value _ _ dv); [ | eauto ].
    destruct (check_manager_keys rmk imk); [ | eauto ].
    rewrite Hp. eauto.
  - intros nm' t Hn Ht Hd Hk. exists msg.
    unfold init, mbind, result_bind. now rewrite Hn, Ht, Hd, Hk, Hp.
Qed.

Lemma contains_self (s : string) : contains s s.
Proof.
  exists EmptyString, EmptyString.
  change (s = s +:+ EmptyString).
  induction s as [ | x s IH]; [ reflexivity | ].
  change (String x s = String x (s +:+ EmptyString)). now f_equal.
Qed.

(** X1.  What the constructor was given can be read back from the
    declaration: the name, the resolution of the type, the description, the
    default (with [has_default_value] telling the sentinel apart), both
    manager keys, the metadata ([None] read back as the empty mapping), the
    asset key in every context when it is fixed and the result of the call
    when it is a callable, and the partitions in every context when they
    are a fixed set and the result of the call when they are a function. *)
Theorem init_reads_back nm ty desc dv rmk md ak ap imk d :
  init nm ty desc dv rmk md ak ap imk = Ok d ->
  name d = nm /\
  resolve_dagster_type ty = Ok (dagster_type d) /\
  description d = desc /\
  has_default_value d = is_given dv /\
  (forall v, dv = Given v -> default_value d = Ok v) /\
  root_manager_key d = rmk /\
  input_manager_key d = imk /\
  metadata d = check.opt_dict_param md /\
  is_asset d = (match ak with Some _ => true | None => false end) /\
  (forall k context,
      ak = Some (FixedAssetKey k) ->
      get_asset_key d context = Some k /\ hardcoded_asset_key d = Some k) /\
  (forall f context,
      ak = Some (AssetKeyFn f) ->
      get_asset_key d context = Some (call f context) /\
      hardcoded_asset_key d = None) /\
  (ak = None -> forall context, get_asset_key d context = None) /\
  (forall s context,
      ap = Some (PartitionSet s) -> get_asset_partitions d context = Some s) /\
  (forall f context,
      ap = Some (PartitionFn f) -> get_asset_partitions d context = Some (f context)) /\
  (ap = None -> forall context, get_asset_partitions d context = None).
Proof.
  intros H. apply init_Ok_inv in H as (n' & ty' & Hn & Ht & _ & _ & _ & ->).
  apply check_valid_name_same in Hn as ->.
  unfold name, dagster_type, description, has_default_value, default_value,
    root_manager_key, input_manager_key, metadata, is_asset, get_asset_key,
    hardcoded_asset_key, get_asset_partitions.
  cbn. repeat split; try assumption.
  all: intros; subst; reflexivity.
Qed.

(** X2.  For a built-in scalar type the default is put to the scalar's own
    check.  A default that fails it stops the constructor with a
    [DagsterInvalidDefinitionError] whose message holds the name of the
    input, the display name of the type, the value and the type of the
    value; one that passes it is stored, as long as the manager keys and the
    partitions are accepted. *)
Theorem scalar_default_checked nm ty desc v rmk md ak ap imk nm' t :
  check_valid_name nm = Ok nm' ->
  resolve_dagster_type ty = Ok t ->
  is_nothing t = false ->
  is_BuiltinScalarDagsterType t = true ->
  (type_check_scalar_value t v = false ->
   exists msg,
     init nm ty desc (Given v) rmk md ak ap imk
     = Err (DagsterInvalidDefinitionError msg) /\
     contains nm msg /\ contains (display_name t) msg /\
     contains (str_value v) msg /\ contains (str_type_of v) msg) /\
  (type_check_scalar_value t v = true ->
   check_manager_keys rmk imk = Ok tt ->
   check_asset_partitions ak ap = Ok tt ->
   exists d,
     init nm ty desc (Given v) rmk md ak ap imk = Ok d /\
     default_value d = Ok v /\ dagster_type d = t).
Proof.
  intros Hn Ht Hnothing Hscalar.
  pose proof (check_valid_name_same _ _ Hn) as ->. split.
  - intros Hcheck. eexists. split.
    + unfold init, mbind, result_bind. rewrite Hn, Ht.
      unfold _check_default_value. rewrite Hnothing, Hscalar, Hcheck.
      reflexivity.
    + repeat split.
      * apply contains_here.
      * do 2 apply contains_later. apply contains_here.
      * do 4 apply contains_later. apply contains_here.
      * do 7 apply contains_later. apply contains_self.
  - intros Hcheck Hk Hp. eexists. split.
    + apply (init_Ok_intro nm ty desc (Given v) rmk md ak ap imk nm t);
        try assumption.
      unfold _check_default_value. now rewrite Hnothing, Hscalar, Hcheck.
    + split; reflexivity.
Qed.

(** X3.  [_check_default_value] either returns the default it was given,
    unchanged, or raises a [DagsterInvalidDefinitionError]; for a type that
    is neither [Nothing] nor a built-in scalar it accepts every default. *)
Theorem check_default_value_outcomes input_name (t : DagsterType)
    (dv : or_sentinel Value) :
  (_check_default_value input_name t dv = Ok dv \/
   exists msg,
     _check_default_value input_name t dv
     = Err (DagsterInvalidDefinitionError msg)) /\
  (is_nothing t = false -> is_BuiltinScalarDagsterType t = false ->
   _check_default_value input_name t dv = Ok dv).
Proof.
  unfold _check_default_value. split.
  - destruct dv as [ | v]; [ now left | ].
    destruct (is_nothing t); [ right; eauto | ].
    destruct (is_BuiltinScalarDagsterType t); [ | now left ].
    destruct (type_check_scalar_value t v); [ now left | right; eauto ].
  - intros -> ->. now destruct dv.
Qed.

Lemma check_manager_keys_both (r i : string) :
  r <> EmptyString -> i <> EmptyString ->
  exists msg,
    check_manager_keys (Some r) (Some i) = Err (DagsterInvalidDefinitionError msg) /\
    contains r msg /\ contains i msg.
Proof.
  intros Hr Hi. unfold check_manager_keys, truthy_str.
  rewrite (proj2 (String.eqb_neq r EmptyString) Hr).
  rewrite (proj2 (String.eqb_neq i EmptyString) Hi). cbn [negb andb].
  eexists. split; [ reflexivity | split ].
  - apply contains_here.
  - do 2 apply contains_later. apply contains_here.
Qed.

(** X4.  Two non-empty manager keys are refused: [In.__new__] raises
    [DagsterInvalidDefinitionError] before it looks at anything else, and
    [InputDefinition.__init__] raises it once name, type and default are
    accepted; the message holds both keys.  A key that is [None] or the
    empty string counts as absent. *)
Theorem manager_keys_exclusive (r i : string) :
  r <> EmptyString -> i <> EmptyString ->
  (forall ty desc dv md ak ap,
      exists msg,
        In.new ty desc dv (Some r) md ak ap (Some i)
        = Err (DagsterInvalidDefinitionError msg) /\
        contains r msg /\ contains i msg) /\
  (forall nm ty desc dv md ak ap nm' t,
      check_valid_name nm = Ok nm' ->
      resolve_dagster_type ty = Ok t ->
      _check_default_value nm' t dv = Ok dv ->
      exists msg,
        init nm ty desc dv (Some r) md ak ap (Some i)
        = Err (DagsterInvalidDefinitionError msg) /\
        contains r msg /\ contains i msg) /\
  (forall k, check_manager_keys (Some EmptyString) k = Ok tt /\
             check_manager_keys k (Some EmptyString) = Ok tt /\
             check_manager_keys None k = Ok tt /\
             check_manager_keys k None = Ok tt).
Proof.
  intros Hr Hi.
  destruct (check_manager_keys_both r i Hr Hi) as (msg & Hk & Hcr & Hci).
  repeat split.
  - intros. exists msg. split; [ | now split ].
    unfold In.new, mbind, result_bind. now rewrite Hk.
  - intros nm ty desc dv md ak ap nm' t Hn Ht Hd. exists msg.
    split; [ | now split ].
    unfold init, mbind, result_bind. now rewrite Hn, Ht, Hd, Hk.
  - now destruct k.
  - destruct k as [ k | ]; [ | reflexivity ].
    unfold check_manager_keys, truthy_str. cbn.
    now rewrite andb_false_r.
  - now destruct k.
Qed.

(** X5.  A function passed as [asset_partitions] without an asset key is
    never accepted: the constructor fails whatever the other arguments are,
    and with the [ParameterCheckError] for [asset_partitions] when name,
    type, default and manager keys are in order. *)
Theorem partition_fn_needs_asset_key nm ty desc dv rmk md imk
    (f : InputContext -> gset string) :
  (exists e, init nm ty desc dv rmk md None (Some (PartitionFn f)) imk = Err e) /\
  (forall nm' t,
      check_valid_name nm = Ok nm' ->
      resolve_dagster_type ty = Ok t ->
      _check_default_value nm' t dv = Ok dv ->
      check_manager_keys rmk imk = Ok tt ->
      exists msg,
        init nm ty desc dv rmk md None (Some (PartitionFn f)) imk
        = Err (ParameterCheckError "asset_partitions" msg)).
Proof. now apply init_partitions_without_key. Qed.

End Constructor.

(** * Further properties of the merge *)

Section MergeMore.
Context {C : Collaborators} {L : CollaboratorLaws C}.
Import InputDefinition.

(** The call of the constructor that [combine_with_inferred] ends with. *)
Lemma combine_with_inferred_unfold d i ty :
  name d = InferredInputProps.name i ->
  (if _type_not_set d then _checked_inferred_type i else Ok (_dagster_type d))
  = Ok ty ->
  combine_with_inferred d i
  = init (name d) (DagsterTypeInstance ty)
      (match _description d, InferredInputProps.description i with
       | None, Some s => Some s
       | description, _ => description
       end)
      (if negb (has_default_value d) then InferredInputProps.default_value i
       else _default_value d)
      (_root_manager_key d) (Some (_metadata d)) (_asset_key d)
      (option_map PartitionFn (_asset_partitions_fn d))
      (_input_manager_key d).
Proof.
  intros Hname Hty. unfold combine_with_inferred, check.invariant.
  rewrite (proj2 (String.eqb_eq _ _) Hname).
  unfold mbind at 1, result_bind at 1.
  unfold mbind at 1, result_bind at 1. now rewrite Hty.
Qed.

(** X6.  On a declaration that has nothing but a name (no type, no
    description, no default) [combine_with_inferred] does what
    [create_from_inferred] does with the inferred record alone: the two
    calls return the same declaration or raise the same exception. *)
Theorem combine_of_bare_is_create nm d (i : InferredInputProps.t) :
  init nm PyNone None NoValueSentinel None None None None None = Ok d ->
  name d = InferredInputProps.name i ->
  combine_with_inferred d i = create_from_inferred i.
Proof.
  intros Hd Hname.
  apply init_Ok_inv in Hd as (n' & ty' & Hn & Ht & _ & _ & _ & ->).
  unfold name in Hname. cbn in Hname. subst n'.
  unfold create_from_inferred.
  destruct (_checked_inferred_type i) as [ty | e] eqn:Hty.
  - rewrite (combine_with_inferred_unfold _ _ ty) by (cbn; auto).
    unfold mbind, result_bind, name, has_default_value. cbn.
    now destruct (InferredInputProps.description i).
  - unfold combine_with_inferred, check.invariant, name. cbn.
    rewrite String.eqb_refl. unfold mbind, result_bind. now rewrite Hty.
Qed.

(** X7.  Merging is idempotent: merging the returned declaration with the
    same inferred record once more returns it again. *)
Theorem combine_with_inferred_idempotent d i d' :
  combine_with_inferred d i = Ok d' ->
  combine_with_inferred d' i = Ok d'.
Proof.
  intros H.
  destruct (combine_with_inferred_inv _ _ _ H) as (ty & Hname & Hty & Hd').
  rewrite (combine_with_inferred_unfold _ _ ty Hname Hty) in H.
  rewrite (combine_with_inferred_unfold d' i ty) by (subst d'; cbn; auto).
  etransitivity; [ | exact H ].
  rewrite Hd'. unfold name, has_default_value. cbn. f_equal.
  - now destruct (_description d), (InferredInputProps.description i).
  - now destruct (_default_value d), (InferredInputProps.default_value i).
Qed.

(** X8.  A constructed declaration with an explicit type, a description and
    a default is out of reach of inference: merged with any inferred record
    of its name, it is returned as it is, and the call cannot fail (given
    an asset key whenever there is a partitions function). *)
Theorem combine_with_inferred_explicit d i s :
  constructed d ->
  _type_not_set d = false ->
  _description d = Some s ->
  has_default_value d = true ->
  (_asset_partitions_fn d <> None -> _asset_key d <> None) ->
  name d = InferredInputProps.name i ->
  combine_with_inferred d i = Ok d.
Proof.
  intros Hc Htns Hdesc Hdv Hp Hname.
  destruct (constructed_inv d Hc) as (Hn & Hd & Hk & Hm).
  rewrite (combine_with_inferred_unfold _ _ (_dagster_type d) Hname)
    by now rewrite Htns.
  rewrite Hdesc, Hdv. cbn [negb].
  erewrite init_Ok_intro; eauto using resolve_instance.
  - destruct d. cbn in *. rewrite asset_partitions_fn_of_fn. congruence.
  - apply check_asset_partitions_Ok.
    destruct (_asset_partitions_fn d); [ intros _; apply Hp | ]; discriminate.
Qed.

(** X9.  When the names differ [combine_with_inferred] raises a
    [CheckError] before it does anything else; the message holds both
    names. *)
Theorem combine_with_inferred_mismatch d (i : InferredInputProps.t) :
  name d <> InferredInputProps.name i ->
  exists msg,
    combine_with_inferred d i = Err (CheckError msg) /\
    contains (name d) msg /\ contains (InferredInputProps.name i) msg.
Proof.
  intros Hne. unfold combine_with_inferred, check.invariant.
  rewrite (proj2 (String.eqb_neq _ _) Hne).
  eexists. split; [ reflexivity | split ].
  - do 3 apply contains_later. apply contains_self.
  - apply contains_here.
Qed.

(** X10.  A merge that pairs a [Nothing] type with a default is refused,
    from whichever side the two come: the type may be the declaration's own
    or the inferred one, the default likewise.  The error is the
    [DagsterInvalidDefinitionError] of the constructor. *)
Theorem combine_with_inferred_nothing_default d i t v :
  name d = InferredInputProps.name i ->
  check_valid_name (name d) = Ok (name d) ->
  (if _type_not_set d then _checked_inferred_type i else Ok (_dagster_type d))
  = Ok t ->
  is_nothing t = true ->
  (if has_default_value d then _default_value d
   else InferredInputProps.default_value i) = Given v ->
  combine_with_inferred d i
  = Err (DagsterInvalidDefinitionError
           "Setting a default_value is invalid on InputDefinitions of type Nothing").
Proof.
  intros Hname Hn Hty Hnothing Hdv.
  rewrite (combine_with_inferred_unfold _ _ t Hname Hty).
  unfold init, mbind, result_bind. rewrite Hn, resolve_instance.
  destruct (has_default_value d); cbn [negb]; rewrite Hdv;
    unfold _check_default_value; now rewrite Hnothing.
Qed.

(** X11.  A declaration built from the empty set of partitions and no asset
    key can be merged with nothing: [combine_with_inferred] fails on it for
    every inferred record, since the constructor it ends with now sees a
    function where the empty set was. *)
Theorem combine_with_inferred_empty_partitions nm ty desc dv rmk md imk d i :
  init nm ty desc dv rmk md None (Some (PartitionSet ∅)) imk = Ok d ->
  exists e, combine_with_inferred d i = Err e.
Proof.
  intros Hd.
  apply init_Ok_inv in Hd as (n' & ty' & Hn & Ht & _ & _ & _ & ->).
  unfold combine_with_inferred.
  destruct (check.invariant _ _) as [ [] | e ]; [ | now exists e ].
  unfold mbind at 1, result_bind at 1.
  destruct (if _type_not_set _ then _ else _) as [ t | e ]; [ | now exists e ].
  unfold mbind at 1, result_bind at 1. cbn.
  now apply init_partitions_without_key.
Qed.

End MergeMore.

(** * Further properties of templates and mappings *)

Section TemplatesMore.
Context {C : Collaborators} {L : CollaboratorLaws C}.
Import InputDefinition.

Lemma check_asset_key_inv (ak a : option AssetKeyArg) :
  In.check_asset_key ak = Ok a -> a = ak.
Proof.
  destruct ak as [ [ k | f ] | ]; cbn; try congruence.
  destruct (is_FunctionType f); congruence.
Qed.

(** What a successful [In.__new__] checked, and what it stored. *)
Lemma new_Ok_inv ty desc dv rmk md ak ap imk t :
  In.new ty desc dv rmk md ak ap imk = Ok t ->
  check_manager_keys rmk imk = Ok tt /\
  In.check_asset_key ak = Ok ak /\
  (match ty with
   | NoValueSentinel => In.dagster_type t = NoValueSentinel
   | Given ty => exists ty', resolve_dagster_type ty = Ok ty' /\
                             In.dagster_type t = Given ty'
   end) /\
  In.description t = desc /\
  In.default_value t = dv /\
  In.root_manager_key t = rmk /\
  In.metadata t = check.opt_dict_param md /\
  In.asset_key t = ak /\
  In.asset_partitions t = ap /\
  In.input_manager_key t = imk.
Proof.
  intros H. unfold In.new in H.
  unfold mbind at 1, result_bind at 1 in H.
  destruct (check_manager_keys rmk imk) as [ [] | ]; [ | discriminate H ].
  unfold mbind at 1, result_bind at 1 in H.
  destruct ty as [ | ty ].
  - unfold mbind, result_bind in H.
    destruct (In.check_asset_key ak) as [ a | ] eqn:Ha; [ | discriminate H ].
    pose proof (check_asset_key_inv _ _ Ha) as ->.
    injection H as <-. cbn. repeat split.
  - unfold mbind at 1, result_bind at 1 in H.
    destruct (resolve_dagster_type ty) as [ ty' | ] eqn:Ht; [ | discriminate H ].
    unfold mbind, result_bind in H.
    destruct (In.check_asset_key ak) as [ a | ] eqn:Ha; [ | discriminate H ].
    pose proof (check_asset_key_inv _ _ Ha) as ->.
    injection H as <-. cbn. repeat split.
    now exists ty'.
Qed.

(** X12.  The round trip through [In] is idempotent: on the declaration it
    returns, it returns that declaration again. *)
Theorem round_trip_idempotent d d' :
  round_trip d = Ok d' -> round_trip d' = Ok d'.
Proof.
  intros H. unfold round_trip in H.
  unfold mbind, result_bind in H.
  destruct (In.from_definition d) as [ t | ] eqn:Hfrom; [ | discriminate H ].
  apply new_Ok_inv in Hfrom
    as (Hk & Ha & (ty' & Ht & Hty) & Hdesc & Hdv & Hrmk & Hmd & Hak & Hap & Himk).
  unfold In.to_definition in H.
  rewrite Hty, Hdesc, Hdv, Hrmk, Hmd, Hak, Hap, Himk in H. cbn in H.
  pose proof H as Hinit.
  apply init_Ok_inv in H as (n' & ty'' & Hn & Ht' & _ & _ & _ & Hd').
  unfold round_trip.
  rewrite from_definition_Ok by (subst d'; cbn; assumption).
  unfold mbind, result_bind, In.to_definition. cbn.
  etransitivity; [ | exact Hinit ].
  rewrite Hd'. unfold name. cbn. rewrite asset_partitions_fn_of_fn.
  rewrite resolve_instance in Ht, Ht'. injection Ht' as <-.
  now rewrite (check_valid_name_same _ _ Hn).
Qed.

(** X13.  From a template to a declaration and back: the template that
    [In.from_definition] gives for a declaration bound from a template has
    the same description, default, manager keys, metadata and asset key;
    its type is the declaration's (so [Any] where the template had none),
    and a fixed set of partitions has become the function that returns
    it. *)
Theorem template_round_trip ty desc dv rmk md ak ap imk t nm d :
  In.new ty desc dv rmk md ak ap imk = Ok t ->
  In.to_definition t nm = Ok d ->
  exists t',
    In.from_definition d = Ok t' /\
    In.description t' = In.description t /\
    In.default_value t' = In.default_value t /\
    In.root_manager_key t' = In.root_manager_key t /\
    In.input_manager_key t' = In.input_manager_key t /\
    In.metadata t' = In.metadata t /\
    In.asset_key t' = In.asset_key t /\
    In.dagster_type t' = Given (dagster_type d) /\
    (In.dagster_type t = NoValueSentinel -> In.dagster_type t' = Given Any) /\
    (forall T, In.dagster_type t = Given T -> In.dagster_type t' = Given T) /\
    In.asset_partitions t'
    = option_map PartitionFn (asset_partitions_fn_of (In.asset_partitions t)).
Proof.
  intros Hnew Hto.
  apply new_Ok_inv in Hnew
    as (Hk & Ha & Hty & Hdesc & Hdv & Hrmk & Hmd & Hak & Hap & Himk).
  unfold In.to_definition in Hto.
  apply init_Ok_inv in Hto as (n' & ty' & Hn & Ht & _ & Hk' & _ & ->).
  rewrite from_definition_Ok by (cbn; congruence).
  eexists. split; [ reflexivity | ]. cbn.
  repeat split.
  - intros Hs. rewrite Hs, resolve_None in Ht. congruence.
  - intros T HT. rewrite HT, resolve_instance in Ht. congruence.
Qed.

(** X14.  A template does not look at its default: [In] accepts a default
    together with a [Nothing] type, and it is the binding to a name that
    fails, for every name, with the [DagsterInvalidDefinitionError] of the
    constructor once the name itself is accepted. *)
Theorem template_defers_default_check ty desc v rmk md ak ap imk T :
  check_manager_keys rmk imk = Ok tt ->
  resolve_dagster_type ty = Ok T ->
  is_nothing T = true ->
  In.check_asset_key ak = Ok ak ->
  exists t,
    In.new (Given ty) desc (Given v) rmk md ak ap imk = Ok t /\
    forall nm,
      (exists e, In.to_definition t nm = Err e) /\
      (forall nm',
          check_valid_name nm = Ok nm' ->
          In.to_definition t nm
          = Err (DagsterInvalidDefinitionError
                   "Setting a default_value is invalid on InputDefinitions of type Nothing")).
Proof.
  intros Hk Ht Hnothing Ha. eexists. split.
  - unfold In.new, mbind, result_bind. rewrite Hk, Ht, Ha. reflexivity.
  - intros nm. unfold In.to_definition, init, mbind, result_bind. cbn.
    destruct (check_valid_name nm) as [ nm' | e ]; [ | split; [ eauto | discriminate ] ].
    rewrite resolve_instance. unfold _check_default_value. rewrite Hnothing.
    split; [ eauto | reflexivity ].
Qed.

(** X15.  Whether inference may set the type of a bound template depends on
    the template alone: bound from a template without [dagster_type], a
    declaration is [Any] until merged and takes the inferred type in the
    merge; bound from a template with one, it has that type resolved and
    keeps it in the merge. *)
Theorem template_type_inference ty desc dv rmk md ak ap imk t nm d :
  In.new ty desc dv rmk md ak ap imk = Ok t ->
  In.to_definition t nm = Ok d ->
  match ty with
  | NoValueSentinel =>
      dagster_type d = Any /\
      forall i d', combine_with_inferred d i = Ok d' ->
                   _checked_inferred_type i = Ok (dagster_type d')
  | Given ty =>
      resolve_dagster_type ty = Ok (dagster_type d) /\
      forall i d', combine_with_inferred d i = Ok d' ->
                   dagster_type d' = dagster_type d
  end.
Proof.
  intros Hnew Hto.
  apply new_Ok_inv in Hnew as (_ & _ & Hty & _).
  unfold In.to_definition in Hto.
  apply init_Ok_inv in Hto as (n' & ty' & Hn & Ht & _ & _ & _ & ->).
  destruct ty as [ | ty ].
  - rewrite Hty, resolve_None in Ht. injection Ht as <-.
    split; [ reflexivity | ]. intros i d' H.
    apply combine_with_inferred_inv in H as (T & _ & HT & ->).
    rewrite Hty in HT. exact HT.
  - destruct Hty as (T & HT & Hty). rewrite Hty, resolve_instance in Ht.
    injection Ht as <-. split; [ exact HT | ]. intros i d' H.
    apply combine_with_inferred_inv in H as (T' & _ & HT' & ->).
    rewrite Hty in HT'. cbn in HT'. unfold dagster_type. cbn. congruence.
Qed.

(** X16.  [get_definition] on a mapping made by [mapping_to] gives back a
    declaration with the name, type and description of the declaration the
    mapping came from and nothing else: no default, no manager key, no
    metadata, no asset key and no partitions. *)
Theorem mapping_get_definition d node port k :
  constructed d ->
  exists d0,
    get_definition (mapping_to d node port k) = Ok d0 /\
    name d0 = name d /\
    dagster_type d0 = dagster_type d /\
    description d0 = description d /\
    has_default_value d0 = false /\
    root_manager_key d0 = None /\
    input_manager_key d0 = None /\
    metadata d0 = [] /\
    is_asset d0 = false /\
    (forall context, get_asset_partitions d0 context = None).
Proof.
  intros Hc. destruct (constructed_inv d Hc) as (Hn & _).
  unfold get_definition, mapping_to. cbn.
  rewrite (init_Ok_intro (name d) (DagsterTypeInstance (dagster_type d))
             (description d) NoValueSentinel None None None None None
             (name d) (dagster_type d) Hn (resolve_instance _)
             eq_refl eq_refl eq_refl).
  eexists. split; [ reflexivity | ]. repeat split.
Qed.

(** X17.  A declaration made from an inferred record alone has the name,
    description and default of the record and the resolution of its
    annotation as type, counts as explicitly typed, and has no manager
    key, metadata, asset key or partitions. *)
Theorem create_from_inferred_fields (i : InferredInputProps.t) d :
  create_from_inferred i = Ok d ->
  name d = InferredInputProps.name i /\
  _checked_inferred_type i = Ok (dagster_type d) /\
  description d = InferredInputProps.description i /\
  _default_value d = InferredInputProps.default_value i /\
  _type_not_set d = false /\
  root_manager_key d = None /\
  input_manager_key d = None /\
  metadata d = [] /\
  is_asset d = false /\
  (forall context, get_asset_partitions d context = None).
Proof.
  intros H. unfold create_from_inferred in H.
  unfold mbind, result_bind in H.
  destruct (_checked_inferred_type i) as [ ty | ] eqn:Hty; [ | discriminate H ].
  apply init_Ok_inv in H as (n' & ty' & Hn & Ht & _ & _ & _ & ->).
  rewrite resolve_instance in Ht. injection Ht as <-.
  apply check_valid_name_same in Hn as ->.
  repeat split.
Qed.

(** X18.  [GraphIn.to_definition] succeeds exactly when the name is
    accepted, and gives an untyped declaration ([Any], type not set) with
    the description of the [GraphIn] and nothing else; it is the
    declaration [get_definition] gives for a mapping built without a
    type. *)
Theorem graph_in_to_definition (g : GraphIn.t) nm :
  ((exists d, GraphIn.to_definition g nm = Ok d) <->
   (exists nm', check_valid_name nm = Ok nm')) /\
  (forall d, GraphIn.to_definition g nm = Ok d ->
             name d = nm /\ dagster_type d = Any /\ _type_not_set d = true /\
             description d = GraphIn.description g /\
             has_default_value d = false /\ is_asset d = false) /\
  (forall node port k,
      get_definition
        (InputMapping.mk nm node port k (GraphIn.description g) None)
      = GraphIn.to_definition g nm).
Proof.
  repeat split.
  - intros (d & H). apply init_Ok_inv in H as (n' & _ & Hn & _). eauto.
  - intros (nm' & Hn). eexists.
    apply (init_Ok_intro nm PyNone _ NoValueSentinel None None None None None
             nm' Any Hn resolve_None eq_refl eq_refl eq_refl).
  - apply init_Ok_inv in H as (n' & ty' & Hn & _ & _ & _ & _ & ->).
    now apply check_valid_name_same in Hn as ->.
  - apply init_Ok_inv in H as (n' & ty' & _ & Ht & _ & _ & _ & ->).
    rewrite resolve_None in Ht. now injection Ht as <-.
  - now apply init_Ok_inv in H as (n' & ty' & _ & _ & _ & _ & _ & ->).
  - now apply init_Ok_inv in H as (n' & ty' & _ & _ & _ & _ & _ & ->).
  - now apply init_Ok_inv in H as (n' & ty' & _ & _ & _ & _ & _ & ->).
  - now apply init_Ok_inv in H as (n' & ty' & _ & _ & _ & _ & _ & ->).
Qed.

End TemplatesMore.

Section DescribeMore.
Context {C : Collaborators}.
Import InputMapping.

Lemma append_nil_r (s : string) : s +:+ EmptyString = s.
Proof.
  induction s as [ | x s IH]; [ reflexivity | ].
  change (String x (s +:+ EmptyString) = String x s). now f_equal.
Qed.

(** X19.  [describe] does not tell a fan-in mapping from a plain one: the
    mapping to slot [k] of input [p] and the plain mapping to an input
    named [p] followed by the digits of [k] have the same description,
    while [maps_to] keeps them apart. *)
Theorem describe_not_injective g n p (k : Z) desc ty desc' ty' :
  describe (InputMapping.mk g n p (Some k) desc ty)
  = describe (InputMapping.mk g n (p +:+ pretty k) None desc' ty') /\
  maps_to (InputMapping.mk g n p (Some k) desc ty)
  <> maps_to (InputMapping.mk g n (p +:+ pretty k) None desc' ty').
Proof.
  split; [ | discriminate ].
  unfold describe, maps_to. cbn.
  now rewrite append_assoc, append_nil_r.
Qed.

End DescribeMore.

(** ** The further statements on the small registry *)

Lemma explicit_x_constructed : constructed Sample.explicit_x.
Proof.
  exists "x", (PyOther Sample.py_int), (Some "count"), (Given (Sample.VInt 1)),
    None, None, None, None, None.
  reflexivity.
Qed.

Lemma init_reads_back_witness :
  name Sample.loaded_x = "x" /\
  resolve_dagster_type (PyOther Sample.py_str) = Ok (dagster_type Sample.loaded_x) /\
  metadata Sample.loaded_x = [("owner", "team")] /\
  get_asset_key Sample.loaded_x tt = Some ["table"] /\
  get_asset_partitions Sample.loaded_x tt = Some {["p1"]}.
Proof.
  destruct (init_reads_back (L := sample_laws)
              "x" (PyOther Sample.py_str) (Some "a word") NoValueSentinel None
              (Some [("owner", "team")])
              (Some (@InputDefinition.FixedAssetKey Sample.collaborators ["table"]))
              (Some (@InputDefinition.PartitionFn Sample.collaborators
                       (fun _ => {["p1"]})))
              (Some "io") Sample.loaded_x eq_refl)
    as (Hn & Ht & _ & _ & _ & _ & _ & Hm & _ & Hk & _ & _ & _ & Hp & _).
  split; [ exact Hn | ]. split; [ exact Ht | ]. split; [ exact Hm | ].
  split; [ exact (proj1 (Hk ["table"] tt eq_refl)) | exact (Hp _ tt eq_refl) ].
Defined.

Lemma scalar_default_checked_witness :
  (exists msg,
      InputDefinition.init "threshold" (PyOther Sample.py_int) None
        (Given (Sample.VStr "5")) None None None None None
      = Err (DagsterInvalidDefinitionError msg) /\
      contains "threshold" msg /\ contains "Int" msg /\
      contains "5" msg /\ contains "<class 'str'>" msg) /\
  (exists d,
      InputDefinition.init "threshold" (PyOther Sample.py_int) None
        (Given (Sample.VInt 5)) None None None None None = Ok d /\
      default_value d = Ok (Sample.VInt 5) /\ dagster_type d = Sample.TInt).
Proof.
  split.
  - exact (proj1 (scalar_default_checked (L := sample_laws)
                    "threshold" (PyOther Sample.py_int) None (Sample.VStr "5")
                    None None None None None "threshold" Sample.TInt
                    eq_refl eq_refl eq_refl eq_refl) eq_refl).
  - exact (proj2 (scalar_default_checked (L := sample_laws)
                    "threshold" (PyOther Sample.py_int) None (Sample.VInt 5)
                    None None None None None "threshold" Sample.TInt
                    eq_refl eq_refl eq_refl eq_refl) eq_refl eq_refl eq_refl).
Defined.

Lemma manager_keys_exclusive_witness :
  exists msg,
    In.new (C := Sample.collaborators) NoValueSentinel None NoValueSentinel
      (Some "root") None None None (Some "io")
    = Err (DagsterInvalidDefinitionError msg) /\
    contains "root" msg /\ contains "io" msg.
Proof.
  destruct (manager_keys_exclusive (C := Sample.collaborators) "root" "io"
              ltac:(discriminate) ltac:(discriminate)) as (H & _).
  exact (H NoValueSentinel None NoValueSentinel None None None).
Defined.

Lemma combine_of_bare_is_create_witness :
  combine_with_inferred Sample.plain_x Sample.inferred_x
  = create_from_inferred Sample.inferred_x /\
  create_from_inferred Sample.inferred_x = Ok Sample.combined_x.
Proof.
  split; [ | reflexivity ].
  exact (combine_of_bare_is_create (C := Sample.collaborators)
           "x" Sample.plain_x Sample.inferred_x eq_refl eq_refl).
Defined.

Lemma combine_with_inferred_idempotent_witness :
  combine_with_inferred Sample.plain_x Sample.inferred_x = Ok Sample.combined_x /\
  combine_with_inferred Sample.combined_x Sample.inferred_x = Ok Sample.combined_x.
Proof.
  split; [ reflexivity | ].
  exact (combine_with_inferred_idempotent (L := sample_laws)
           Sample.plain_x Sample.inferred_x Sample.combined_x eq_refl).
Defined.

Lemma combine_with_inferred_explicit_witness :
  combine_with_inferred Sample.explicit_x Sample.inferred_x = Ok Sample.explicit_x.
Proof.
  exact (combine_with_inferred_explicit (L := sample_laws)
           Sample.explicit_x Sample.inferred_x "count" explicit_x_constructed
           eq_refl eq_refl eq_refl ltac:(intros H; now contradiction H) eq_refl).
Defined.

Lemma combine_with_inferred_mismatch_witness :
  exists msg,
    combine_with_inferred Sample.plain_x Sample.inferred_y = Err (CheckError msg) /\
    contains "x" msg /\ contains "y" msg.
Proof.
  exact (combine_with_inferred_mismatch (C := Sample.collaborators)
           Sample.plain_x Sample.inferred_y ltac:(discriminate)).
Defined.

Lemma combine_with_inferred_nothing_default_witness :
  combine_with_inferred Sample.nothing_x Sample.inferred_x
  = Err (DagsterInvalidDefinitionError
           "Setting a default_value is invalid on InputDefinitions of type Nothing").
Proof.
  exact (combine_with_inferred_nothing_default (L := sample_laws)
           Sample.nothing_x Sample.inferred_x Sample.TNothing (Sample.VInt 3)
           eq_refl eq_refl eq_refl eq_refl eq_refl).
Defined.

Lemma combine_with_inferred_empty_partitions_witness :
  InputDefinition.init "x" PyNone None NoValueSentinel None None None
    (Some (InputDefinition.PartitionSet ∅)) None = Ok Sample.empty_partitions_x /\
  exists e,
    combine_with_inferred Sample.empty_partitions_x Sample.inferred_x = Err e.
Proof.
  split; [ reflexivity | ].
  exact (combine_with_inferred_empty_partitions (C := Sample.collaborators)
           "x" PyNone None NoValueSentinel None None None
           Sample.empty_partitions_x Sample.inferred_x eq_refl).
Defined.

Lemma round_trip_idempotent_witness :
  exists d', round_trip Sample.plain_x = Ok d' /\ round_trip d' = Ok d'.
Proof.
  eexists. split; [ reflexivity | ].
  exact (round_trip_idempotent (L := sample_laws) Sample.plain_x _ eq_refl).
Defined.

Lemma template_round_trip_witness :
  exists t d t',
    In.new (C := Sample.collaborators) NoValueSentinel (Some "a word")
      NoValueSentinel None None None None (Some "io") = Ok t /\
    In.to_definition t "x" = Ok d /\
    In.from_definition d = Ok t' /\
    In.description t' = Some "a word" /\
    In.input_manager_key t' = Some "io" /\
    In.dagster_type t' = Given Sample.TAny.
Proof.
  destruct (template_round_trip (L := sample_laws)
              NoValueSentinel (Some "a word") NoValueSentinel None None None None
              (Some "io") _ "x" _ eq_refl eq_refl)
    as (t' & Hfrom & Hdesc & _ & _ & Himk & _ & _ & _ & Hany & _).
  eexists. eexists. exists t'.
  split; [ reflexivity | ]. split; [ reflexivity | ].
  split; [ exact Hfrom | ]. split; [ exact Hdesc | ].
  split; [ exact Himk | exact (Hany eq_refl) ].
Defined.

Lemma template_defers_default_check_witness :
  exists t,
    In.new (C := Sample.collaborators) (Given (PyOther Sample.py_nothing)) None
      (Given (Sample.VInt 0)) None None None None None = Ok t /\
    exists e, In.to_definition t "data" = Err e.
Proof.
  destruct (template_defers_default_check (L := sample_laws)
              (PyOther Sample.py_nothing) None (Sample.VInt 0) None None None None
              None Sample.TNothing eq_refl eq_refl eq_refl eq_refl)
    as (t & Hnew & Hto).
  exists t. split; [ exact Hnew | exact (proj1 (Hto "data")) ].
Defined.

Lemma template_type_inference_witness :
  exists t d,
    In.new (C := Sample.collaborators) NoValueSentinel None NoValueSentinel
      None None None None None = Ok t /\
    In.to_definition t "x" = Ok d /\
    dagster_type d = Sample.TAny /\
    _checked_inferred_type Sample.inferred_x = Ok (dagster_type Sample.combined_x).
Proof.
  destruct (template_type_inference (L := sample_laws)
              NoValueSentinel None NoValueSentinel None None None None None
              _ "x" _ eq_refl eq_refl) as (Hany & Hmerge).
  eexists. eexists.
  split; [ reflexivity | ]. split; [ reflexivity | ].
  split; [ exact Hany | exact (Hmerge Sample.inferred_x Sample.combined_x eq_refl) ].
Defined.

Lemma mapping_get_definition_witness :
  exists d0,
    get_definition (mapping_to Sample.loaded_x "node" "port" (Some 2)) = Ok d0 /\
    name d0 = "x" /\ dagster_type d0 = Sample.TString /\
    description d0 = Some "a word" /\ input_manager_key d0 = None /\
    is_asset d0 = false.
Proof.
  destruct (mapping_get_definition (L := sample_laws)
              Sample.loaded_x "node" "port" (Some 2) loaded_x_constructed)
    as (d0 & H & Hn & Ht & Hd & _ & _ & Hi & _ & Ha & _).
  exists d0. repeat split; assumption.
Defined.

Lemma create_from_inferred_fields_witness :
  create_from_inferred Sample.inferred_x = Ok Sample.combined_x /\
  name Sample.combined_x = "x" /\
  _checked_inferred_type Sample.inferred_x = Ok (dagster_type Sample.combined_x) /\
  description Sample.combined_x = Some "an integer".
Proof.
  destruct (create_from_inferred_fields (L := sample_laws)
              Sample.inferred_x Sample.combined_x eq_refl)
    as (Hn & Ht & Hd & _).
  split; [ reflexivity | ]. split; [ exact Hn | ]. split; [ exact Ht | exact Hd ].
Defined.

Lemma graph_in_to_definition_witness :
  (exists d, GraphIn.to_definition (C := Sample.collaborators)
               (GraphIn.mk (Some "the input")) "x" = Ok d) /\
  ~ (exists d, GraphIn.to_definition (C := Sample.collaborators)
                 (GraphIn.mk (Some "the input")) EmptyString = Ok d).
Proof.
  split.
  - apply (proj1 (graph_in_to_definition (L := sample_laws)
                    (GraphIn.mk (Some "the input")) "x")).
    exists "x". reflexivity.
  - intros H.
    apply (proj1 (graph_in_to_definition (L := sample_laws)
                    (GraphIn.mk (Some "the input")) EmptyString)) in H.
    destruct H as (nm' & H). discriminate H.
Defined.
